(** * wan_video.py: submission, polling and retrieval of a WAN 2.6 video job

    A shallow embedding of [src/wan2_6_i2v/wan_video.py].  The Python
    functions are state-passing computations over a log of the effects
    they perform (HTTP requests, sleeps, directory creation) and a file
    system; the remote service, the clock and the operating system are
    read-only oracles.  Exceptions are values of the computation's
    outcome.  The [while True] loop of [wait_for_completion] takes a
    bound on its number of iterations.  Console output is not modelled. *)

From Stdlib Require Import ZArith NArith List String Ascii Lia.
From Stdlib Require Import Strings.Byte.
From stdpp Require Import base option gmap strings list fin_maps.

Set Warnings "-register-all,-abstract-large-number".
Local Open Scope string_scope.
Local Open Scope list_scope.

(** ** Python values as produced by [response.json()] *)

Module Py.

(** A parsed JSON document.  An object is the list of its bindings, the
    binding that a lookup finds first being the one the parsed [dict]
    holds.  Numbers are carried as integers: the program never computes
    with one, it only tests them for truth. *)
Inductive json : Type :=
| JNull
| JBool (b : bool)
| JNum (n : Z)
| JStr (s : string)
| JArr (xs : list json)
| JObj (kvs : list (string * json)).

(** The exceptions that the program raises or lets through. *)
Inductive exn : Type :=
| ValueError (msg : string)
| AttributeError
| TypeError
| KeyError (key : string)
| OverflowError
| ConnectionError
| ChunkedEncodingError
| InvalidHeader
| UnicodeEncodeError
| MissingSchema
| InvalidSchema
| InvalidURL
| JSONDecodeError
| HTTPError (code : Z)
| FileExistsError (path : string)
| FileNotFoundError (path : string)
| IsADirectoryError (path : string)
| OSError (path : string)
| SystemExit (code : Z).

(** What a call yields: a value, an exception, or nothing yet because
    the iteration bound of a loop was reached while it was still
    running. *)
Inductive outcome (A : Type) : Type :=
| Ret (a : A)
| Raise (e : exn)
| OutOfFuel.
Arguments Ret {A} a.
Arguments Raise {A} e.
Arguments OutOfFuel {A}.

Fixpoint assoc (k : string) (kvs : list (string * json)) : option json :=
  match kvs with
  | [] => None
  | (k', v) :: rest => if String.eqb k k' then Some v else assoc k rest
  end.

(** [v == s] for a string literal [s]. *)
Definition eq_str (v : json) (s : string) : bool :=
  match v with
  | JStr t => String.eqb t s
  | _ => false
  end.

(** [bool(v)]. *)
Definition truthy (v : json) : bool :=
  match v with
  | JNull => false
  | JBool b => b
  | JNum n => negb (Z.eqb n 0)
  | JStr s => negb (String.eqb s "")
  | JArr xs => match xs with [] => false | _ => true end
  | JObj kvs => match kvs with [] => false | _ => true end
  end.

(** [bool(s)] for an optional string argument ([None] or a [str]). *)
Definition truthy_arg (a : option string) : bool :=
  match a with
  | None => false
  | Some s => negb (String.eqb s "")
  end.

(** The string that an optional argument holds once it tested true. *)
Definition str_arg (a : option string) : string :=
  match a with
  | Some s => s
  | None => ""
  end.

(** [k in s] between strings: [k] occurs in [s]. *)
Fixpoint occurs (k s : string) : bool :=
  String.prefix k s ||
  match s with
  | EmptyString => false
  | String _ rest => occurs k rest
  end.

(** [d.get(k, default)]: only a [dict] has the method. *)
Definition get (d : json) (k : string) (default : json) : outcome json :=
  match d with
  | JObj kvs => Ret (match assoc k kvs with Some v => v | None => default end)
  | _ => Raise AttributeError
  end.

(** [k in c]: key of a [dict], element of a [list], substring of a
    [str]; the other values are not containers. *)
Definition contains (k : string) (c : json) : outcome bool :=
  match c with
  | JObj kvs => Ret (match assoc k kvs with Some _ => true | None => false end)
  | JArr xs => Ret (existsb (fun x => eq_str x k) xs)
  | JStr s => Ret (occurs k s)
  | _ => Raise TypeError
  end.

(** [c[k]] with a string subscript. *)
Definition getitem (c : json) (k : string) : outcome json :=
  match c with
  | JObj kvs => match assoc k kvs with Some v => Ret v | None => Raise (KeyError k) end
  | _ => Raise TypeError
  end.

End Py.
Import Py.

(** ** The standard-library functions the program calls *)

Module Lib.

(** [s.lower()] on the ASCII letters; the bytes of other characters are
    kept, none of which lowers to a letter of the extensions below. *)
Definition lower_ascii (c : ascii) : ascii :=
  let n := nat_of_ascii c in
  if (65 <=? n)%nat && (n <=? 90)%nat then ascii_of_nat (n + 32) else c.

Fixpoint lower (s : string) : string :=
  match s with
  | EmptyString => EmptyString
  | String c rest => String (lower_ascii c) (lower rest)
  end.

Fixpoint has_char (c : ascii) (s : string) : bool :=
  match s with
  | EmptyString => false
  | String a rest => Ascii.eqb a c || has_char c rest
  end.

(** The part of [s] after the last [c], all of [s] when there is none. *)
Fixpoint after_last (c : ascii) (s : string) : string :=
  match s with
  | EmptyString => EmptyString
  | String a rest =>
      if has_char c rest then after_last c rest
      else if Ascii.eqb a c then rest else s
  end.

(** The suffix of [s] that starts at its last [c]. *)
Fixpoint from_last (c : ascii) (s : string) : option string :=
  match s with
  | EmptyString => None
  | String a rest =>
      match from_last c rest with
      | Some t => Some t
      | None => if Ascii.eqb a c then Some s else None
      end
  end.

Fixpoint drop_leading (c : ascii) (s : string) : string :=
  match s with
  | EmptyString => EmptyString
  | String a rest => if Ascii.eqb a c then drop_leading c rest else s
  end.

(** [os.path.splitext(p)[1]]: the extension starts at the last dot of
    the last path component, leading dots of that component apart. *)
Definition splitext_ext (p : string) : string :=
  match from_last "." (drop_leading "." (after_last "/" p)) with
  | Some e => e
  | None => EmptyString
  end.

Definition ends_with_slash (s : string) : bool :=
  match from_last "/" s with
  | Some "/" => true
  | _ => false
  end.

(** [os.path.join(a, b)] (posixpath). *)
Definition path_join (a b : string) : string :=
  if String.prefix "/" b then b
  else if String.eqb a "" || ends_with_slash a then a +:+ b
  else a +:+ "/" +:+ b.

(** [base64.b64encode(data).decode("utf-8")]. *)
Definition b64_alphabet : list ascii :=
  list_ascii_of_string
    "ABCDEFGHIJKLMNOPQRSTUVWXYZabcdefghijklmnopqrstuvwxyz0123456789+/".

Definition b64_digit (n : N) : ascii :=
  nth (N.to_nat (n mod 64)) b64_alphabet "="%char.

Fixpoint b64encode (data : list byte) : string :=
  match data with
  | [] => EmptyString
  | [a] =>
      let n := (Byte.to_N a * 65536)%N in
      String (b64_digit (n / 262144)) (String (b64_digit (n / 4096)) "==")
  | [a; b] =>
      let n := (Byte.to_N a * 65536 + Byte.to_N b * 256)%N in
      String (b64_digit (n / 262144)) (String (b64_digit (n / 4096))
        (String (b64_digit (n / 64)) "="))
  | a :: b :: c :: rest =>
      let n := (Byte.to_N a * 65536 + Byte.to_N b * 256 + Byte.to_N c)%N in
      String (b64_digit (n / 262144)) (String (b64_digit (n / 4096))
        (String (b64_digit (n / 64)) (String (b64_digit n) (b64encode rest))))
  end.

(** [base64.b64decode], the reading back of an encoding: the value of
    a digit is its position in the alphabet, four digits make three
    bytes, and padding closes the text. *)
Fixpoint find_index (c : ascii) (l : list ascii) (i : N) : option N :=
  match l with
  | [] => None
  | x :: rest => if Ascii.eqb x c then Some i else find_index c rest (N.succ i)
  end.

Definition b64_value (c : ascii) : option N := find_index c b64_alphabet 0.

Definition byte_of (n : N) : byte :=
  match Byte.of_N (n mod 256) with
  | Some b => b
  | None => x00%byte
  end.

Definition b64_group (v1 v2 v3 v4 : N) : N :=
  (((v1 * 64 + v2) * 64 + v3) * 64 + v4)%N.

Fixpoint b64decode (s : string) : option (list byte) :=
  match s with
  | EmptyString => Some []
  | String c1 (String c2 (String c3 (String c4 rest))) =>
      match b64_value c1, b64_value c2 with
      | Some v1, Some v2 =>
          if Ascii.eqb c3 "=" then
            if Ascii.eqb c4 "=" && String.eqb rest "" then
              Some [byte_of (b64_group v1 v2 0 0 / 65536)]
            else None
          else
            match b64_value c3 with
            | Some v3 =>
                if Ascii.eqb c4 "=" then
                  if String.eqb rest "" then
                    Some [byte_of (b64_group v1 v2 v3 0 / 65536);
                          byte_of (b64_group v1 v2 v3 0 / 256)]
                  else None
                else
                  match b64_value c4, b64decode rest with
                  | Some v4, Some bytes =>
                      Some (byte_of (b64_group v1 v2 v3 v4 / 65536)
                            :: byte_of (b64_group v1 v2 v3 v4 / 256)
                            :: byte_of (b64_group v1 v2 v3 v4) :: bytes)
                  | _, _ => None
                  end
            | None => None
            end
      | _, _ => None
      end
  | _ => None
  end.

(** A reading of [datetime.now()]. *)
Record datetime : Type := {
  year : nat; month : nat; day : nat;
  hour : nat; minute : nat; second : nat
}.

Definition digit (n : nat) : ascii := ascii_of_nat (48 + n mod 10).

Definition pad2 (n : nat) : string :=
  String (digit (n / 10)) (String (digit n) EmptyString).

Definition pad4 (n : nat) : string :=
  String (digit (n / 1000)) (String (digit (n / 100)) (pad2 n)).

(** [t.strftime("%Y%m%d_%H%M%S")], for a four-digit year. *)
Definition strftime_stamp (t : datetime) : string :=
  pad4 (year t) +:+ pad2 (month t) +:+ pad2 (day t) +:+ "_" +:+
  pad2 (hour t) +:+ pad2 (minute t) +:+ pad2 (second t).

(** A reading whose fields have the widths that the format gives them:
    every date of the years 0 to 9999 is such a reading. *)
Definition in_range (t : datetime) : bool :=
  (year t <? 10000)%nat && (month t <? 100)%nat && (day t <? 100)%nat
  && (hour t <? 100)%nat && (minute t <? 100)%nat && (second t <? 100)%nat.

(** [response.iter_content(chunk_size=n)] over a body that arrives
    whole: pieces of [n] bytes, the last one possibly shorter. *)
Fixpoint chunks_upto (fuel n : nat) (body : list byte) : list (list byte) :=
  match fuel with
  | O => []
  | S fuel' =>
      match body with
      | [] => []
      | _ => firstn n body :: chunks_upto fuel' n (skipn n body)
      end
  end.

Definition iter_content (chunk_size : nat) (body : list byte) : list (list byte) :=
  chunks_upto (length body) chunk_size body.

End Lib.
Import Lib.

(** ** The program's environment *)

Module Env.

(** The module-level settings read from the process environment.
    [API_KEY] is [os.environ.get("WAN_API_KEY")]: absent, or a string
    that may be empty. *)
Record config : Type := {
  API_KEY : option string;
  WAN_MODEL_I2V : string;
  WAN_MODEL_T2V : string;
  WAN_RESOLUTION : string;
  WAN_SIZE : string;
  WAN_DURATION : Z;
  WAN_AUDIO : bool;
  WAN_PROMPT_EXTEND : bool;
  WAN_SHOT_TYPE : string;
  WAN_OUTPUT_DIR : string
}.

Definition API_BASE_URL : string := "https://dashscope-intl.aliyuncs.com/api/v1".

(** The settings when no variable but the key is set. *)
Definition default_config (key : option string) : config := {|
  API_KEY := key;
  WAN_MODEL_I2V := "wan2.6-i2v";
  WAN_MODEL_T2V := "wan2.6-t2v";
  WAN_RESOLUTION := "720P";
  WAN_SIZE := "1280*720";
  WAN_DURATION := 10;
  WAN_AUDIO := true;
  WAN_PROMPT_EXTEND := true;
  WAN_SHOT_TYPE := "single";
  WAN_OUTPUT_DIR := "./output"
|}.

(** A [requests.Response]: [json_body] is what [.json()] parses out of
    the body, [None] when the body is not JSON. *)
Record response : Type := {
  status_code : Z;
  json_body : option json;
  content : list byte
}.

(** How a download that does not deliver the whole body ends:
    [requests] rejects the URL before any request is made
    ([MissingSchema], [InvalidSchema], [InvalidURL]); the request is
    made and gets no response; or the response arrives with its status
    line, the body breaks off after [delivered], and the iteration over
    the body raises [e]. *)
Inductive no_artifact : Type :=
| NotSent (e : exn)
| NoAnswer
| Broken (code : Z) (delivered : list byte) (e : exn).

(** What lies outside the process.  A request that gets no response
    ([None]) is a transport failure.  [task_status k id] answers the
    status request for task [id] made after [k] earlier ones.
    [artifact u] is the response to the download of [u] when its body
    arrives whole, and [artifact_failure u] tells how the download ends
    when it does not.  [header_refused name value]: the exception
    with which [requests], or the HTTP layer beneath it, refuses a
    header of that name and value before the request is sent
    ([InvalidHeader] for a value with a line break,
    [UnicodeEncodeError] for one it cannot encode), if it does.
    [mkdir_refused] and [open_refused]: the operating system refuses
    to create the directory, or to open the path for writing, whatever
    its reason (permissions, a missing parent, a directory under
    another name). *)
Record world : Type := {
  submit : json -> option response;
  task_status : nat -> json -> option response;
  artifact : string -> option response;
  artifact_failure : string -> no_artifact;
  header_refused : string -> string -> option exn;
  clock : nat -> datetime;
  mkdir_refused : string -> bool;
  open_refused : string -> bool
}.

(** A response read with [stream=True]: [arrived] holds the status line
    and the bytes that the iteration over the body yields, [breaks] the
    exception that ends the iteration when the body is cut short. *)
Record streamed : Type := {
  arrived : response;
  breaks : option exn
}.

(** The file system: a path, taken as written, names a directory or a
    regular file.  A directory entry stands for the directory together
    with its ancestors.  The several names of one file are not
    identified: where another name of a directory or of a file stands
    in the way, it is the operating system that refuses
    ([mkdir_refused], [open_refused]). *)
Inductive node : Type :=
| Dir
| File (data : list byte).

(** The effects a run performs, the newest first in [log]. *)
Inductive event : Type :=
| HttpPost (url : string) (headers : list (string * string)) (payload : json)
| HttpGetTask (url_prefix : string) (task_id : json) (headers : list (string * string))
| HttpGetArtifact (video_url : string)
| Slept (seconds : Z)
| MadeDirs (path : string)
| OpenedForWrite (path : string).

Record state : Type := {
  log : list event;
  fs : gmap string node
}.

Definition record (e : event) (st : state) : state :=
  {| log := e :: log st; fs := fs st |}.

Definition is_network (e : event) : bool :=
  match e with
  | HttpPost _ _ _ | HttpGetTask _ _ _ | HttpGetArtifact _ => true
  | _ => false
  end.

Definition is_status_fetch (e : event) : bool :=
  match e with HttpGetTask _ _ _ => true | _ => false end.

Definition is_sleep (e : event) : bool :=
  match e with Slept _ => true | _ => false end.

(** The downloader's own effects: it creates the output directory,
    requests the artifact and opens the destination. *)
Definition is_download (e : event) : bool :=
  match e with
  | MadeDirs _ | HttpGetArtifact _ | OpenedForWrite _ => true
  | _ => false
  end.

Fixpoint tally (p : event -> bool) (l : list event) : nat :=
  match l with
  | [] => O
  | e :: rest => if p e then S (tally p rest) else tally p rest
  end.

Definition count (p : event -> bool) (st : state) : nat := tally p (log st).

Definition network_calls : state -> nat := count is_network.
Definition status_fetches : state -> nat := count is_status_fetch.
Definition sleeps : state -> nat := count is_sleep.
Definition download_steps : state -> nat := count is_download.

(** *** Computations *)

Definition M (A : Type) : Type := state -> outcome A * state.

Definition ret {A} (a : A) : M A := fun st => (Ret a, st).

Definition raise {A} (e : exn) : M A := fun st => (Raise e, st).

Definition out_of_fuel {A} : M A := fun st => (OutOfFuel, st).

Definition bind {A B} (c : M A) (k : A -> M B) : M B :=
  fun st =>
    match c st with
    | (Ret a, st') => k a st'
    | (Raise e, st') => (Raise e, st')
    | (OutOfFuel, st') => (OutOfFuel, st')
    end.

Definition lift {A} (o : outcome A) : M A := fun st => (o, st).

End Env.
Import Env.

Declare Scope py_scope.
Delimit Scope py_scope with py.
Notation "x <- c ;; k" := (bind c (fun x => k))
  (at level 100, c at next level, right associativity) : py_scope.
Notation "c ;; k" := (bind c (fun _ => k))
  (at level 100, right associativity) : py_scope.
Local Open Scope py_scope.

(** ** wan_video.py *)

Module Wan.

Section Program.

Variable cfg : config.
Variable w : world.

(** *** Library calls with effects *)

(** [requests] checks every header when it prepares a request. *)
Fixpoint headers_refused (headers : list (string * string)) : option exn :=
  match headers with
  | [] => None
  | (name, value) :: rest =>
      match header_refused w name value with
      | Some e => Some e
      | None => headers_refused rest
      end
  end.

(** [requests.post(url, headers=headers, json=payload)]. *)
Definition requests_post (url : string) (headers : list (string * string))
    (payload : json) : M response :=
  match headers_refused headers with
  | Some e => raise e
  | None =>
    fun st =>
      let st' := record (HttpPost url headers payload) st in
      match submit w payload with
      | Some r => (Ret r, st')
      | None => (Raise ConnectionError, st')
      end
  end.

(** [requests.get(f"{API_BASE_URL}/tasks/{task_id}", headers=headers)]. *)
Definition requests_get_task (url_prefix : string) (task_id : json)
    (headers : list (string * string)) : M response :=
  match headers_refused headers with
  | Some e => raise e
  | None =>
    fun st =>
      let st' := record (HttpGetTask url_prefix task_id headers) st in
      match task_status w (status_fetches st) task_id with
      | Some r => (Ret r, st')
      | None => (Raise ConnectionError, st')
      end
  end.

(** [requests.get(video_url, stream=True)]: what is not a string has
    no scheme once [requests] has turned it into one. *)
Definition requests_get_stream (video_url : json) : M streamed :=
  match video_url with
  | JStr u =>
      fun st =>
        let st' := record (HttpGetArtifact u) st in
        match artifact w u with
        | Some r => (Ret {| arrived := r; breaks := None |}, st')
        | None =>
            match artifact_failure w u with
            | NotSent e => (Raise e, st)
            | NoAnswer => (Raise ConnectionError, st')
            | Broken code delivered e =>
                (Ret {| arrived := {| status_code := code;
                                      json_body := None;
                                      content := delivered |};
                        breaks := Some e |}, st')
            end
        end
  | _ => raise MissingSchema
  end.

(** [response.json()]. *)
Definition response_json (r : response) : M json :=
  match json_body r with
  | Some v => ret v
  | None => raise JSONDecodeError
  end.

(** [response.raise_for_status()]. *)
Definition raise_for_status (r : response) : M unit :=
  if (400 <=? status_code r)%Z && (status_code r <? 600)%Z
  then raise (HTTPError (status_code r))
  else ret tt.

(** [time.sleep(seconds)]: CPython first converts the length to a
    64-bit count of nanoseconds, then tests its sign. *)
Definition time_sleep (seconds : Z) : M unit :=
  if (seconds <? -9223372036)%Z || (9223372036 <? seconds)%Z
  then raise OverflowError
  else if (seconds <? 0)%Z
  then raise (ValueError "sleep length must be non-negative")
  else fun st => (Ret tt, record (Slept seconds) st).

(** [datetime.now()]; time advances with the effects performed. *)
Definition datetime_now : M datetime :=
  fun st => (Ret (clock w (length (log st))), st).

(** [os.path.exists(path)]. *)
Definition os_path_exists (path : string) : M bool :=
  fun st => (Ret (match fs st !! path with Some _ => true | None => false end), st).

(** [os.makedirs(path, exist_ok=True)]. *)
Definition os_makedirs (path : string) : M unit :=
  fun st =>
    match fs st !! path with
    | Some Dir => (Ret tt, record (MadeDirs path) st)
    | Some (File _) => (Raise (FileExistsError path), st)
    | None =>
        if String.eqb path "" then (Raise (FileNotFoundError path), st)
        else if mkdir_refused w path then (Raise (OSError path), st)
        else (Ret tt, {| log := MadeDirs path :: log st;
                         fs := <[path := Dir]> (fs st) |})
    end.

(** [with open(path, "rb") as f: f.read()].  Every regular file of the
    model is read; the properties of the submission are stated for
    requests whose body was built, which a file that cannot be read
    prevents. *)
Definition read_file (path : string) : M (list byte) :=
  fun st =>
    match fs st !! path with
    | Some (File data) => (Ret data, st)
    | Some Dir => (Raise (IsADirectoryError path), st)
    | None => (Raise (FileNotFoundError path), st)
    end.

(** [with open(path, "wb") as f: for chunk in chunks: f.write(chunk)]:
    the file is created or truncated when it is opened, and holds the
    chunks written when the iteration ends, normally or with the
    exception [broken]. *)
Definition write_file (path : string) (chunks : list (list byte))
    (broken : option exn) : M unit :=
  fun st =>
    match fs st !! path with
    | Some Dir => (Raise (IsADirectoryError path), st)
    | _ =>
        if open_refused w path then (Raise (OSError path), st)
        else
          let st' := {| log := OpenedForWrite path :: log st;
                        fs := <[path := File (concat chunks)]> (fs st) |} in
          match broken with
          | None => (Ret tt, st')
          | Some e => (Raise e, st')
          end
    end.

(** *** The program *)

Definition mime_types : list (string * string) :=
  [(".png", "image/png");
   (".jpg", "image/jpeg");
   (".jpeg", "image/jpeg");
   (".gif", "image/gif");
   (".webp", "image/webp")].

Fixpoint mime_lookup (ext : string) (table : list (string * string)) : option string :=
  match table with
  | [] => None
  | (k, v) :: rest => if String.eqb ext k then Some v else mime_lookup ext rest
  end.

Definition encode_image_to_base64 (image_path : string) : M string :=
  let ext := lower (splitext_ext image_path) in
  let mime_type :=
    match mime_lookup ext mime_types with Some m => m | None => "image/png" end in
  data <- read_file image_path ;;
  ret ("data:" +:+ mime_type +:+ ";base64," +:+ b64encode data).

Definition i2v_payload (prompt img_url : string) : json :=
  JObj [("model", JStr (WAN_MODEL_I2V cfg));
        ("input", JObj [("prompt", JStr prompt); ("img_url", JStr img_url)]);
        ("parameters",
          JObj [("resolution", JStr (WAN_RESOLUTION cfg));
                ("prompt_extend", JBool (WAN_PROMPT_EXTEND cfg));
                ("duration", JNum (WAN_DURATION cfg));
                ("shot_type", JStr (WAN_SHOT_TYPE cfg))])].

Definition t2v_payload (prompt : string) : json :=
  JObj [("model", JStr (WAN_MODEL_T2V cfg));
        ("input", JObj [("prompt", JStr prompt)]);
        ("parameters",
          JObj [("size", JStr (WAN_SIZE cfg));
                ("prompt_extend", JBool (WAN_PROMPT_EXTEND cfg));
                ("duration", JNum (WAN_DURATION cfg));
                ("shot_type", JStr (WAN_SHOT_TYPE cfg))])].

Definition key_missing : exn := ValueError "WAN_API_KEY is not set in .env".

Definition submission_url : string :=
  API_BASE_URL +:+ "/services/aigc/video-generation/video-synthesis".

(** The request body that [generate_video] assembles. *)
Definition build_payload (prompt : string) (image_input : option string) : M json :=
  if truthy_arg image_input then
    let image_input := str_arg image_input in
    found <- os_path_exists image_input ;;
    img_url <-
      (if (found : bool) then encode_image_to_base64 image_input
       else if String.prefix "data:" image_input then ret image_input
       else ret image_input) ;;
    ret (i2v_payload prompt img_url)
  else
    ret (t2v_payload prompt).

Definition generate_video (prompt : string) (image_input : option string) : M json :=
  if negb (truthy_arg (API_KEY cfg)) then raise key_missing
  else
    let url := submission_url in
    payload <- build_payload prompt image_input ;;
    let headers :=
      [("X-DashScope-Async", "enable");
       ("Authorization", "Bearer " +:+ str_arg (API_KEY cfg));
       ("Content-Type", "application/json")] in
    response <- requests_post url headers payload ;;
    response_json response.

Definition check_status (task_id : json) : M json :=
  if negb (truthy_arg (API_KEY cfg)) then raise key_missing
  else
    let headers := [("Authorization", "Bearer " +:+ str_arg (API_KEY cfg))] in
    response <- requests_get_task (API_BASE_URL +:+ "/tasks/") task_id headers ;;
    response_json response.

(** [wait_for_completion(task_id, interval)], its loop bounded by
    [fuel] iterations. *)
Fixpoint wait_for_completion (fuel : nat) (task_id : json) (interval : Z) : M json :=
  match fuel with
  | O => out_of_fuel
  | S fuel' =>
      result <- check_status task_id ;;
      output <- lift (get result "output" (JObj [])) ;;
      status <- lift (get output "task_status" (JStr "UNKNOWN")) ;;
      _ <- datetime_now ;;
      if eq_str status "SUCCEEDED" then ret result
      else if eq_str status "FAILED" then
        _ <- lift (get output "message" (JStr "不明なエラー")) ;;
        ret result
      else if negb (existsb (eq_str status) ["PENDING"; "RUNNING"]) then ret result
      else
        time_sleep interval ;;
        wait_for_completion fuel' task_id interval
  end.

Definition video_name (timestamp : string) : string :=
  "wan_video_" +:+ timestamp +:+ ".mp4".

Definition download_video (video_url : json) (output_path : option string) : M string :=
  os_makedirs (WAN_OUTPUT_DIR cfg) ;;
  output_path <-
    match output_path with
    | None =>
        now <- datetime_now ;;
        let timestamp := strftime_stamp now in
        ret (path_join (WAN_OUTPUT_DIR cfg) (video_name timestamp))
    | Some p => ret p
    end ;;
  response <- requests_get_stream video_url ;;
  raise_for_status (arrived response) ;;
  write_file output_path (iter_content 8192 (content (arrived response)))
    (breaks response) ;;
  ret output_path.

(** The mode that [run] announces before it submits. *)
Definition run_is_i2v (image_input : option string) : bool :=
  match image_input with Some _ => true | None => false end.

(** [run(prompt, image_input)]: [None] is Python's [None], [Some p] the
    path of the downloaded video. *)
Definition run (fuel : nat) (prompt : string) (image_input : option string)
    : M (option string) :=
  result <- generate_video prompt image_input ;;
  has_output <- lift (contains "output" result) ;;
  no_task_id <-
    (if negb has_output then ret true
     else
       output <- lift (get result "output" (JObj [])) ;;
       has_id <- lift (contains "task_id" output) ;;
       ret (negb has_id)) ;;
  if (no_task_id : bool) then ret None
  else
    output <- lift (getitem result "output") ;;
    task_id <- lift (getitem output "task_id") ;;
    final_result <- wait_for_completion fuel task_id 10 ;;
    output <- lift (get final_result "output" (JObj [])) ;;
    status <- lift (get output "task_status" JNull) ;;
    if eq_str status "SUCCEEDED" then
      video_url <- lift (get output "video_url" JNull) ;;
      if truthy video_url then
        path <- download_video video_url None ;;
        ret (Some path)
      else ret None
    else ret None.

(** [main()] on [sys.argv]. *)
Definition main (fuel : nat) (argv : list string) : M unit :=
  if (length argv <? 2)%nat then raise (SystemExit 1)
  else
    match argv with
    | [_; prompt] => run fuel prompt None ;; ret tt
    | _ :: image_input :: prompt :: _ => run fuel prompt (Some image_input) ;; ret tt
    | _ => raise (SystemExit 1)
    end.

End Program.

End Wan.
Import Wan.

(** ** The vocabulary of the specification, read off the code *)

Module Spec.

Inductive job_state : Type := Pending | Running | Succeeded | Failed | Unrecognized.


(** The status string a response carries, as the polling loop reads
    it: [result.get("output", {}).get("task_status", "UNKNOWN")].  A
    response that is not an object, or whose [output] is not one,
    carries none. *)
Definition status_of (result : json) : option json :=
  match get result "output" (JObj []) with
  | Ret output =>
      match get output "task_status" (JStr "UNKNOWN") with
      | Ret status => Some status
      | _ => None
      end
  | _ => None
  end.

Definition classify (status : json) : job_state :=
  if eq_str status "SUCCEEDED" then Succeeded
  else if eq_str status "FAILED" then Failed
  else if eq_str status "PENDING" then Pending
  else if eq_str status "RUNNING" then Running
  else Unrecognized.

Definition state_of (result : json) : option job_state :=
  classify <$> status_of result.

Definition terminal (s : job_state) : bool :=
  match s with
  | Pending | Running => false
  | Succeeded | Failed | Unrecognized => true
  end.

(** A response on which polling goes on, and one on which it stops. *)
Definition in_progress (result : json) : bool :=
  match state_of result with
  | Some s => negb (terminal s)
  | None => false
  end.

Definition is_terminal (result : json) : bool :=
  match state_of result with
  | Some s => terminal s
  | None => false
  end.

Definition output_field (k : string) (result : json) : option json :=
  match result with
  | JObj kvs =>
      match assoc "output" kvs with
      | Some (JObj okvs) => assoc k okvs
      | _ => None
      end
  | _ => None
  end.

(** [output.video_url] when it is there and true, [output.message],
    [output.task_id]. *)
Definition artifact_location (result : json) : option json :=
  match output_field "video_url" result with
  | Some v => if truthy v then Some v else None
  | None => None
  end.

Definition error_detail : json -> option json := output_field "message".

Definition task_id_of : json -> option json := output_field "task_id".




(** The status request number [k] for task [id] is answered with the
    JSON document [r]. *)
Definition fetch_yields (w : world) (k : nat) (id r : json) : Prop :=
  exists resp, task_status w k id = Some resp /\ json_body resp = Some r.

(** The requests from number [from] on are answered with [script], in
    order. *)
Definition serves (w : world) (id : json) (from : nat) (script : list json) : Prop :=
  forall k r, script !! k = Some r -> fetch_yields w (from + k) id r.

(** The state after one status request, and after [n] rounds of
    request and sleep. *)
Definition fetched (cfg : config) (id : json) (st : state) : state :=
  record (HttpGetTask (API_BASE_URL +:+ "/tasks/") id
            [("Authorization", "Bearer " +:+ str_arg (API_KEY cfg))]) st.

Fixpoint after_rounds (cfg : config) (id : json) (interval : Z) (n : nat)
    (st : state) : state :=
  match n with
  | O => st
  | S n' => after_rounds cfg id interval n' (record (Slept interval) (fetched cfg id st))
  end.

(** What [requests.post] followed by [.json()] yields for a payload,
    and the event the request leaves in the log. *)
Definition posted (w : world) (payload : json) : outcome json :=
  match submit w payload with
  | Some r =>
      match json_body r with
      | Some v => Ret v
      | None => Raise JSONDecodeError
      end
  | None => Raise ConnectionError
  end.

(** [os.makedirs(path, exist_ok=True)] goes through: the directory is
    there, or the path is free, not empty, and the system lets it be
    created. *)
Definition makedirs_allowed (w : world) (st : state) (path : string) : bool :=
  match fs st !! path with
  | Some Dir => true
  | Some (File _) => false
  | None => negb (String.eqb path "") && negb (mkdir_refused w path)
  end.

(** The state once the directory is made. *)
Definition made_dirs (path : string) (st : state) : state :=
  {| log := MadeDirs path :: log st; fs := <[path := Dir]> (fs st) |}.

(** The destination that [download_video] generates when it is given
    none, in a call that starts in state [st]. *)
Definition generated_stamp (w : world) (st : state) : string :=
  strftime_stamp (clock w (S (length (log st)))).

Definition generated_path (cfg : config) (w : world) (st : state) : string :=
  path_join (WAN_OUTPUT_DIR cfg) (video_name (generated_stamp w st)).

(** A response that [raise_for_status] lets through. *)
Definition status_ok (r : response) : bool :=
  negb ((400 <=? status_code r)%Z && (status_code r <? 600)%Z).

(** The data URI that [encode_image_to_base64] builds for a file of
    that name and content. *)
Definition data_uri (image_path : string) (data : list byte) : string :=
  "data:" +:+
  match mime_lookup (lower (splitext_ext image_path)) mime_types with
  | Some m => m
  | None => "image/png"
  end +:+ ";base64," +:+ b64encode data.

Definition post_event (cfg : config) (payload : json) : event :=
  HttpPost submission_url
    [("X-DashScope-Async", "enable");
     ("Authorization", "Bearer " +:+ str_arg (API_KEY cfg));
     ("Content-Type", "application/json")]
    payload.

(** The headers of the two kinds of request, and the lengths that
    [time.sleep] takes. *)
Definition submission_headers (cfg : config) : list (string * string) :=
  [("X-DashScope-Async", "enable");
   ("Authorization", "Bearer " +:+ str_arg (API_KEY cfg));
   ("Content-Type", "application/json")].

Definition status_headers (cfg : config) : list (string * string) :=
  [("Authorization", "Bearer " +:+ str_arg (API_KEY cfg))].

Definition sleep_max : Z := 9223372036.

(** A reading of the clock that is a date with a year of four digits,
    which [%Y] prints as they are. *)
Definition four_digit_year (t : datetime) : bool :=
  in_range t && (1000 <=? year t)%nat.

End Spec.
Import Spec.

(** ** Scripted environments *)

Module Script.

Definition json_response (v : json) : response :=
  {| status_code := 200; json_body := Some v; content := [] |}.

Definition video_response (data : list byte) : response :=
  {| status_code := 200; json_body := None; content := data |}.

Definition noon : datetime :=
  {| year := 2026; month := 3; day := 9; hour := 12; minute := 0; second := 7 |}.

(** A service that answers the submission with [submission], the
    status requests with [script] in order (and not at all once the
    script is over), and every artifact request with [video]. *)
Definition scripted (submission : option response)
    (script : list (option response)) (video : option response) : world :=
  {| submit := fun _ => submission;
     task_status := fun k _ => nth k script None;
     artifact := fun _ => video;
     artifact_failure := fun _ => NoAnswer;
     header_refused := fun _ _ => None;
     clock := fun _ => noon;
     mkdir_refused := fun _ => false;
     open_refused := fun _ => false |}.

Definition status_response (status : string) (extra : list (string * json)) : json :=
  JObj [("output", JObj (("task_status", JStr status) :: extra))].

Definition accepted (task_id : string) : option response :=
  Some (json_response (JObj [("output", JObj [("task_id", JStr task_id)])])).

Definition fresh : state := {| log := []; fs := ∅ |}.

Definition with_key : config := default_config (Some "sk-test").

Definition answers (script : list json) : list (option response) :=
  map (fun v => Some (json_response v)) script.

Definition pending : json := status_response "PENDING" [].
Definition running : json := status_response "RUNNING" [].
Definition succeeded (location : string) : json :=
  status_response "SUCCEEDED" [("video_url", JStr location)].
Definition failed (detail : string) : json :=
  status_response "FAILED" [("message", JStr detail)].

Definition a_task : json := JStr "task-1".

(** A service that answers every status request with the same
    response, and one whose answer number [k] has a body that is not
    JSON. *)
Definition always (answer : json) : world :=
  {| submit := fun _ => None;
     task_status := fun _ _ => Some (json_response answer);
     artifact := fun _ => None;
     artifact_failure := fun _ => NoAnswer;
     header_refused := fun _ _ => None;
     clock := fun _ => noon;
     mkdir_refused := fun _ => false;
     open_refused := fun _ => false |}.


End Script.
Import Script.

(** A concrete script is served: one case per scripted response. *)
Ltac script_served :=
  let k := fresh "k" in
  let r := fresh "r" in
  let H := fresh "H" in
  intros k r H;
  repeat (destruct k as [|k];
          [injection H as <-; eexists; split; reflexivity|]);
  discriminate H.

(** * Properties *)

(** ** The library functions on examples *)

Example splitext_png : splitext_ext "./pics/cat.v2.PNG" = ".PNG".
Proof. reflexivity. Qed.

Example splitext_hidden : splitext_ext "dir.d/.bashrc" = "".
Proof. reflexivity. Qed.

Example b64_man : b64encode [x4d; x61; x6e]%byte = "TWFu".
Proof. reflexivity. Qed.

Example b64_ma : b64encode [x4d; x61]%byte = "TWE=".
Proof. reflexivity. Qed.

Example b64_m : b64encode [x4d]%byte = "TQ==".
Proof. reflexivity. Qed.

Example join_default : path_join "./output" "a.mp4" = "./output/a.mp4".
Proof. reflexivity. Qed.

Example join_slash : path_join "out/" "a.mp4" = "out/a.mp4".
Proof. reflexivity. Qed.

Example stamp_example :
  strftime_stamp {| year := 2026; month := 3; day := 9;
                    hour := 7; minute := 5; second := 0 |} = "20260309_070500".
Proof. reflexivity. Qed.

Example sleep_too_long :
  time_sleep 10000000000 fresh = (Raise OverflowError, fresh)
  /\ time_sleep (-10000000000) fresh = (Raise OverflowError, fresh)
  /\ time_sleep (-1) fresh
     = (Raise (ValueError "sleep length must be non-negative"), fresh)
  /\ time_sleep 10 fresh = (Ret tt, record (Slept 10) fresh).
Proof. repeat split. Qed.

(** A key that [requests] does not take as a header value: nothing is
    sent. *)
Example header_not_sent :
  let w := {| submit := fun _ => None;
              task_status := fun _ _ => None;
              artifact := fun _ => None;
              artifact_failure := fun _ => NoAnswer;
              header_refused := fun name _ => if String.eqb name "Authorization"
                                              then Some InvalidHeader else None;
              clock := fun _ => noon;
              mkdir_refused := fun _ => false;
              open_refused := fun _ => false |} in
  generate_video with_key w "a cat walking" None fresh = (Raise InvalidHeader, fresh)
  /\ check_status with_key w a_task fresh = (Raise InvalidHeader, fresh).
Proof. intros w. split; reflexivity. Qed.

(** A download whose body breaks off after two bytes: the destination
    was opened, and holds the two bytes. *)
Example broken_stream_leaves_part :
  let w := {| submit := fun _ => None;
              task_status := fun _ _ => None;
              artifact := fun _ => None;
              artifact_failure :=
                fun _ => Broken 200 [x01; x02]%byte ChunkedEncodingError;
              header_refused := fun _ _ => None;
              clock := fun _ => noon;
              mkdir_refused := fun _ => false;
              open_refused := fun _ => false |} in
  let call := download_video with_key w (JStr "https://cdn.example/v.mp4")
                (Some "clip.mp4") fresh in
  fst call = Raise ChunkedEncodingError
  /\ fs (snd call) !! "clip.mp4" = Some (File [x01; x02]%byte)
  /\ log (snd call) = [OpenedForWrite "clip.mp4";
                       HttpGetArtifact "https://cdn.example/v.mp4";
                       MadeDirs "./output"].
Proof. intros w call. repeat split. Qed.

(** A location that is no URL: [requests] raises before any request. *)
Example location_without_scheme :
  let w := {| submit := fun _ => None;
              task_status := fun _ _ => None;
              artifact := fun _ => None;
              artifact_failure := fun _ => NotSent MissingSchema;
              header_refused := fun _ _ => None;
              clock := fun _ => noon;
              mkdir_refused := fun _ => false;
              open_refused := fun _ => false |} in
  download_video with_key w (JStr "not a url") None fresh
  = (Raise MissingSchema, made_dirs "./output" fresh)
  /\ download_video with_key w (JNum 5) None fresh
     = (Raise MissingSchema, made_dirs "./output" fresh).
Proof. intros w. split; reflexivity. Qed.

(** ** The polling loop *)

Section Polling.

Variable cfg : config.
Variable w : world.
Variable task_id : json.
Variable interval : Z.

Hypothesis key_set : truthy_arg (API_KEY cfg) = true.
Hypothesis bearer_ok : headers_refused w (status_headers cfg) = None.

Lemma tally_fetched (st : state) :
  status_fetches (fetched cfg task_id st) = S (status_fetches st)
  /\ sleeps (fetched cfg task_id st) = sleeps st
  /\ download_steps (fetched cfg task_id st) = download_steps st
  /\ network_calls (fetched cfg task_id st) = S (network_calls st)
  /\ fs (fetched cfg task_id st) = fs st.
Proof. repeat split. Qed.

Lemma tally_slept (st : state) :
  status_fetches (record (Slept interval) st) = status_fetches st
  /\ sleeps (record (Slept interval) st) = S (sleeps st)
  /\ download_steps (record (Slept interval) st) = download_steps st
  /\ network_calls (record (Slept interval) st) = network_calls st
  /\ fs (record (Slept interval) st) = fs st.
Proof. repeat split. Qed.

Lemma after_rounds_tally (n : nat) (st : state) :
  status_fetches (after_rounds cfg task_id interval n st) = (status_fetches st + n)%nat
  /\ sleeps (after_rounds cfg task_id interval n st) = (sleeps st + n)%nat
  /\ download_steps (after_rounds cfg task_id interval n st) = download_steps st
  /\ network_calls (after_rounds cfg task_id interval n st) = (network_calls st + n)%nat
  /\ fs (after_rounds cfg task_id interval n st) = fs st.
Proof.
  revert st. induction n as [|n IH]; intros st; simpl.
  - repeat split; lia.
  - destruct (IH (record (Slept interval) (fetched cfg task_id st)))
      as (Hf & Hs & Hd & Hn & Hfs).
    rewrite Hf, Hs, Hd, Hn, Hfs.
    change (status_fetches (record (Slept interval) (fetched cfg task_id st)))
      with (S (status_fetches st)).
    change (sleeps (record (Slept interval) (fetched cfg task_id st)))
      with (S (sleeps st)).
    change (network_calls (record (Slept interval) (fetched cfg task_id st)))
      with (S (network_calls st)).
    repeat split; lia.
Qed.

(** A status request that is answered returns the answer and leaves
    one request in the log. *)
Lemma check_status_returns (st : state) (r : json) :
  fetch_yields w (status_fetches st) task_id r ->
  check_status cfg w task_id st = (Ret r, fetched cfg task_id st).
Proof.
  intros (resp & Hresp & Hbody).
  unfold check_status. rewrite key_set. cbn [negb].
  unfold bind, requests_get_task.
  change [("Authorization", "Bearer " +:+ str_arg (API_KEY cfg))]
    with (status_headers cfg).
  rewrite bearer_ok, Hresp.
  unfold response_json. rewrite Hbody. reflexivity.
Qed.


(** The tests of the loop body agree with the classification. *)
Lemma loop_tests_terminal (status : json) :
  (eq_str status "SUCCEEDED" || eq_str status "FAILED"
   || negb (existsb (eq_str status) ["PENDING"; "RUNNING"]))
  = terminal (classify status).
Proof.
  unfold classify. cbn [existsb].
  destruct (eq_str status "SUCCEEDED"); [reflexivity|].
  destruct (eq_str status "FAILED"); [reflexivity|].
  destruct (eq_str status "PENDING"); [reflexivity|].
  destruct (eq_str status "RUNNING"); reflexivity.
Qed.

(** One iteration on a response that carries a status. *)
Lemma wait_iteration (fuel : nat) (st : state) (r : json) (s : job_state) :
  fetch_yields w (status_fetches st) task_id r ->
  state_of r = Some s ->
  wait_for_completion cfg w (S fuel) task_id interval st =
    if terminal s then (Ret r, fetched cfg task_id st)
    else (time_sleep interval ;; wait_for_completion cfg w fuel task_id interval)
           (fetched cfg task_id st).
Proof.
  intros Hfetch Hstate.
  cbn [wait_for_completion]. unfold bind at 1.
  rewrite (check_status_returns st r Hfetch).
  unfold state_of, status_of in Hstate.
  unfold bind at 1, lift at 1.
  destruct (get r "output" (JObj [])) as [output| |]; [|discriminate..].
  assert (Hobj : exists okvs, output = JObj okvs).
  { destruct output; try discriminate. eauto. }
  destruct Hobj as (okvs & ->).
  cbn [get] in Hstate |- *. cbn in Hstate. injection Hstate as <-.
  unfold bind at 1, lift at 1.
  set (status := match assoc "task_status" okvs with
                 | Some v => v
                 | None => JStr "UNKNOWN"
                 end).
  unfold bind at 1, datetime_now.
  rewrite <- loop_tests_terminal.
  destruct (eq_str status "SUCCEEDED"); [reflexivity|].
  destruct (eq_str status "FAILED"); [reflexivity|].
  cbn [orb].
  destruct (negb (existsb (eq_str status) ["PENDING"; "RUNNING"])); reflexivity.
Qed.

Lemma sleep_returns (st : state) :
  (0 <= interval <= sleep_max)%Z ->
  time_sleep interval st = (Ret tt, record (Slept interval) st).
Proof.
  unfold sleep_max. intros Hpos. unfold time_sleep.
  replace (interval <? -9223372036)%Z with false by (symmetry; apply Z.ltb_ge; lia).
  replace (9223372036 <? interval)%Z with false by (symmetry; apply Z.ltb_ge; lia).
  replace (interval <? 0)%Z with false by (symmetry; apply Z.ltb_ge; lia).
  reflexivity.
Qed.

Lemma serves_head (from : nat) (r : json) (script : list json) :
  serves w task_id from (r :: script) -> fetch_yields w from task_id r.
Proof.
  intros Hserves. specialize (Hserves O r eq_refl).
  now rewrite Nat.add_0_r in Hserves.
Qed.

Lemma serves_tail (from : nat) (r : json) (script : list json) :
  serves w task_id from (r :: script) -> serves w task_id (S from) script.
Proof.
  intros Hserves k r' Hk. specialize (Hserves (S k) r' Hk).
  now rewrite Nat.add_succ_r in Hserves.
Qed.

Lemma in_progress_state (r : json) :
  in_progress r = true -> exists s, state_of r = Some s /\ terminal s = false.
Proof.
  unfold in_progress. destruct (state_of r) as [s|]; [|discriminate].
  intros H. exists s. split; [reflexivity|]. now destruct (terminal s).
Qed.

Lemma is_terminal_state (r : json) :
  is_terminal r = true -> exists s, state_of r = Some s /\ terminal s = true.
Proof.
  unfold is_terminal. destruct (state_of r) as [s|]; [|discriminate].
  intros H. exists s. split; [reflexivity | exact H].
Qed.

(** While the responses say that the job is in progress, each
    iteration requests the status once, sleeps once, and goes on. *)
Lemma wait_rounds (pre : list json) (fuel : nat) (st : state) :
  (0 <= interval <= sleep_max)%Z ->
  forallb in_progress pre = true ->
  serves w task_id (status_fetches st) pre ->
  wait_for_completion cfg w (length pre + fuel) task_id interval st =
  wait_for_completion cfg w fuel task_id interval
    (after_rounds cfg task_id interval (length pre) st).
Proof.
  intros Hpos. revert st.
  induction pre as [|r pre IH]; intros st Hpre Hserves; [reflexivity|].
  cbn [forallb] in Hpre. apply andb_prop in Hpre as [Hr Hpre].
  destruct (in_progress_state r Hr) as (s & Hs & Hnt).
  cbn [length Nat.add after_rounds].
  rewrite (wait_iteration (length pre + fuel) st r s (serves_head _ _ _ Hserves) Hs).
  rewrite Hnt. unfold bind. rewrite (sleep_returns _ Hpos).
  apply IH; [exact Hpre|].
  exact (serves_tail _ _ _ Hserves).
Qed.

(** A script of in-progress responses closed by a terminal one: the
    loop returns the last response after one request per response. *)
Lemma wait_script (pre : list json) (last : json) (fuel : nat) (st : state) :
  (0 <= interval <= sleep_max)%Z ->
  forallb in_progress pre = true ->
  is_terminal last = true ->
  serves w task_id (status_fetches st) (pre ++ [last]) ->
  (length pre < fuel)%nat ->
  wait_for_completion cfg w fuel task_id interval st =
  (Ret last, fetched cfg task_id (after_rounds cfg task_id interval (length pre) st)).
Proof.
  intros Hpos Hpre Hlast Hserves Hfuel.
  replace fuel with (length pre + S (fuel - S (length pre)))%nat by lia.
  rewrite wait_rounds; [|exact Hpos|exact Hpre|].
  - destruct (is_terminal_state last Hlast) as (s & Hs & Ht).
    rewrite (wait_iteration _ _ last s); [now rewrite Ht| |exact Hs].
    destruct (after_rounds_tally (length pre) st) as (-> & _).
    apply (Hserves (length pre) last).
    rewrite lookup_app_r by lia. now rewrite Nat.sub_diag.
  - intros k r Hk. apply Hserves.
    rewrite lookup_app_l; [exact Hk|]. now apply lookup_lt_Some in Hk.
Qed.

End Polling.






(** ** Transport failures while polling *)

Section PollingFailure.

Variable cfg : config.
Variable w : world.
Variable task_id : json.
Variable interval : Z.

Hypothesis key_set : truthy_arg (API_KEY cfg) = true.
Hypothesis bearer_ok : headers_refused w (status_headers cfg) = None.
Hypothesis interval_ok : (0 <= interval <= sleep_max)%Z.

(** With fewer iterations than in-progress responses the bound is
    reached while the loop is still running. *)
Lemma wait_still_running (fuel : nat) (pre : list json) (st : state) :
  forallb in_progress pre = true ->
  serves w task_id (status_fetches st) pre ->
  (fuel <= length pre)%nat ->
  wait_for_completion cfg w fuel task_id interval st =
  (OutOfFuel, after_rounds cfg task_id interval fuel st).
Proof.
  revert pre st. induction fuel as [|fuel IH]; intros pre st Hpre Hserves Hlen;
    [reflexivity|].
  destruct pre as [|r pre]; [cbn in Hlen; lia|].
  cbn [forallb] in Hpre. apply andb_prop in Hpre as [Hr Hpre].
  destruct (in_progress_state r Hr) as (s & Hs & Hnt).
  rewrite (wait_iteration cfg w task_id interval key_set bearer_ok fuel st r s
             (serves_head _ _ _ _ _ Hserves) Hs).
  rewrite Hnt. unfold bind. rewrite (sleep_returns _ _ interval_ok).
  cbn [after_rounds]. apply (IH pre); [exact Hpre| |cbn in Hlen; lia].
  exact (serves_tail _ _ _ _ _ Hserves).
Qed.


End PollingFailure.




(** ** Building and submitting the request *)

Section Submission.

Variable cfg : config.
Variable w : world.

Lemma build_payload_text (prompt : string) (image_input : option string) (st : state) :
  truthy_arg image_input = false ->
  build_payload cfg prompt image_input st = (Ret (t2v_payload cfg prompt), st).
Proof. intros H. unfold build_payload. now rewrite H. Qed.

Lemma build_payload_image (prompt : string) (image_input : option string) (st : state) :
  truthy_arg image_input = true ->
  (exists img_url,
     build_payload cfg prompt image_input st = (Ret (i2v_payload cfg prompt img_url), st))
  \/ (exists p, image_input = Some p /\ fs st !! p = Some Dir
      /\ build_payload cfg prompt image_input st = (Raise (IsADirectoryError p), st)).
Proof.
  intros H. unfold build_payload. rewrite H.
  destruct image_input as [p|]; [|discriminate]. cbn [str_arg].
  unfold bind, os_path_exists, encode_image_to_base64, bind, read_file, ret.
  cbv beta.
  destruct (fs st !! p) as [[|data]|] eqn:Hp; cbv beta iota; try rewrite Hp.
  - right. exists p. split; [reflexivity|]. split; [exact Hp | reflexivity].
  - left. eexists. reflexivity.
  - left. exists p. destruct (String.prefix "data:" p); reflexivity.
Qed.

(** Building the request changes nothing. *)
Lemma build_payload_pure (prompt : string) (image_input : option string)
    (st st' : state) (o : outcome json) :
  build_payload cfg prompt image_input st = (o, st') -> st' = st.
Proof.
  destruct (truthy_arg image_input) eqn:Ht.
  - destruct (build_payload_image prompt image_input st Ht)
      as [(u & ->)|(p & _ & _ & ->)]; congruence.
  - rewrite (build_payload_text prompt image_input st Ht). congruence.
Qed.

(** With a key that [requests] takes as a header value,
    [generate_video] posts the payload it built and returns the parsed
    answer. *)
Lemma generate_video_posts (prompt : string) (image_input : option string)
    (st : state) (payload : json) :
  truthy_arg (API_KEY cfg) = true ->
  headers_refused w (submission_headers cfg) = None ->
  build_payload cfg prompt image_input st = (Ret payload, st) ->
  generate_video cfg w prompt image_input st =
  (posted w payload, record (post_event cfg payload) st).
Proof.
  intros Hkey Hheaders Hbuild. unfold generate_video. rewrite Hkey. cbn [negb].
  unfold bind at 1. rewrite Hbuild.
  unfold bind, requests_post, posted, response_json, post_event.
  unfold submission_headers in Hheaders. rewrite Hheaders.
  destruct (submit w payload) as [r|]; [|reflexivity].
  destruct (json_body r); reflexivity.
Qed.

(** With a key that [requests] does not take, nothing is sent. *)
Lemma generate_video_refused (prompt : string) (image_input : option string)
    (st : state) (payload : json) (e : exn) :
  truthy_arg (API_KEY cfg) = true ->
  headers_refused w (submission_headers cfg) = Some e ->
  build_payload cfg prompt image_input st = (Ret payload, st) ->
  generate_video cfg w prompt image_input st = (Raise e, st).
Proof.
  intros Hkey Hheaders Hbuild. unfold generate_video. rewrite Hkey. cbn [negb].
  unfold bind at 1. rewrite Hbuild.
  unfold bind, requests_post.
  unfold submission_headers in Hheaders. now rewrite Hheaders.
Qed.

(** Submission performs no status fetch and no step of the download. *)
Lemma generate_video_effects (prompt : string) (image_input : option string)
    (st st' : state) (o : outcome json) :
  generate_video cfg w prompt image_input st = (o, st') ->
  status_fetches st' = status_fetches st
  /\ sleeps st' = sleeps st
  /\ download_steps st' = download_steps st
  /\ fs st' = fs st.
Proof.
  unfold generate_video.
  destruct (negb (truthy_arg (API_KEY cfg))).
  { intros H. injection H as _ <-. repeat split. }
  unfold bind at 1.
  destruct (build_payload cfg prompt image_input st) as [[payload|e|] st1] eqn:Hb;
    pose proof (build_payload_pure _ _ _ _ _ Hb) as ->.
  - unfold bind, requests_post.
    destruct (headers_refused w _).
    { intros H; injection H as _ <-; repeat split. }
    destruct (submit w payload) as [r|].
    + unfold response_json. destruct (json_body r);
        intros H; injection H as _ <-; repeat split.
    + intros H; injection H as _ <-; repeat split.
  - intros H; injection H as _ <-; repeat split.
  - intros H; injection H as _ <-; repeat split.
Qed.

End Submission.

(** C8.  When no API credential is configured ([WAN_API_KEY] unset or
    empty), [generate_video] and [check_status] both fail with the
    missing-key error, and the state is the one they were called in:
    no network call has been made. *)
Theorem missing_key_fails_first (cfg : config) (w : world) (prompt : string)
    (image_input : option string) (task_id : json) (st : state) :
  truthy_arg (API_KEY cfg) = false ->
  generate_video cfg w prompt image_input st = (Raise key_missing, st)
  /\ check_status cfg w task_id st = (Raise key_missing, st).
Proof.
  intros Hkey. unfold generate_video, check_status. rewrite Hkey. split; reflexivity.
Qed.

Lemma missing_key_fails_first_witness :
  truthy_arg (API_KEY (default_config None)) = false
  /\ generate_video (default_config None) (scripted (accepted "task-1") [] None)
       "a cat walking" None fresh = (Raise key_missing, fresh)
  /\ check_status (default_config None) (scripted (accepted "task-1") [] None)
       a_task fresh = (Raise key_missing, fresh)
  /\ network_calls fresh = 0%nat.
Proof.
  split; [reflexivity|].
  destruct (missing_key_fails_first (default_config None)
              (scripted (accepted "task-1") [] None) "a cat walking" None a_task fresh)
    as (Hg & Hc); [reflexivity|].
  split; [exact Hg|]. split; [exact Hc | reflexivity].
Defined.

(** The credential counts as missing exactly when the variable is unset
    or set to the empty string. *)
Lemma key_missing_cases (cfg : config) :
  truthy_arg (API_KEY cfg) = false <-> API_KEY cfg = None \/ API_KEY cfg = Some "".
Proof.
  unfold truthy_arg. destruct (API_KEY cfg) as [k|].
  - destruct (String.eqb_spec k "") as [->|Hne]; cbn.
    + split; [now right | reflexivity].
    + split; [discriminate | intros [H|H]; congruence].
  - split; [now left | reflexivity].
Qed.

(** C3, as amended.  A call of the submission path with an empty prompt
    is not rejected: with a credential configured that [requests] takes
    as a header value, and the request body built (which it always is
    when no image is given, whatever the prompt), [generate_video]
    carries the prompt as given, the empty one included, makes exactly
    one network call, the POST of that request, and returns what the
    service answered.  The prompt is never examined. *)
Theorem prompt_is_not_validated (cfg : config) (w : world) (prompt : string)
    (image_input : option string) (st : state) (payload : json) :
  truthy_arg (API_KEY cfg) = true ->
  headers_refused w (submission_headers cfg) = None ->
  build_payload cfg prompt image_input st = (Ret payload, st) ->
  generate_video cfg w prompt image_input st =
    (posted w payload, record (post_event cfg payload) st)
  /\ network_calls (record (post_event cfg payload) st) = S (network_calls st)
  /\ (exists ikvs, get payload "input" JNull = Ret (JObj ikvs)
                   /\ assoc "prompt" ikvs = Some (JStr prompt))
  /\ build_payload cfg prompt None st = (Ret (t2v_payload cfg prompt), st).
Proof.
  intros Hkey Hheaders Hbuild.
  split; [now apply generate_video_posts|].
  split; [reflexivity|].
  split; [|reflexivity].
  destruct (truthy_arg image_input) eqn:Ht.
  - destruct (build_payload_image cfg prompt image_input st Ht)
      as [(u & Hb)|(p & _ & _ & Hb)]; rewrite Hb in Hbuild; [|discriminate].
    injection Hbuild as <-. eexists. split; reflexivity.
  - rewrite (build_payload_text cfg prompt image_input st Ht) in Hbuild.
    injection Hbuild as <-. eexists. split; reflexivity.
Qed.

Lemma prompt_is_not_validated_witness :
  let w := scripted (accepted "task-1") [] None in
  generate_video with_key w "" None fresh =
    (Ret (JObj [("output", JObj [("task_id", JStr "task-1")])]),
     record (post_event with_key (t2v_payload with_key "")) fresh)
  /\ network_calls (record (post_event with_key (t2v_payload with_key "")) fresh)
     = 1%nat.
Proof.
  intros w.
  destruct (prompt_is_not_validated with_key w "" None fresh (t2v_payload with_key ""))
    as (Hg & Hn & _ & _).
  - reflexivity.
  - reflexivity.
  - reflexivity.
  - split; [exact Hg | exact Hn].
Defined.

(** C3, as stated, fails: with the empty prompt and a configured key the
    call raises nothing; it posts the request and returns the answer. *)
Lemma empty_prompt_is_posted :
  let w := scripted (accepted "task-1") [] None in
  let st := record (post_event with_key (t2v_payload with_key "")) fresh in
  generate_video with_key w "" None fresh =
    (Ret (JObj [("output", JObj [("task_id", JStr "task-1")])]), st)
  /\ network_calls st = 1%nat
  /\ network_calls fresh = 0%nat.
Proof. intros w st. repeat split. Qed.

(** ** The mode of a request *)



(** A request is built unless the image argument names a directory. *)
Lemma build_payload_returns (cfg : config) (prompt : string)
    (image_input : option string) (st : state) :
  (forall p, image_input = Some p -> fs st !! p <> Some Dir) ->
  exists payload, build_payload cfg prompt image_input st = (Ret payload, st).
Proof.
  intros Himg. destruct (truthy_arg image_input) eqn:Ht.
  - destruct (build_payload_image cfg prompt image_input st Ht)
      as [(u & Hb)|(p & Hp & Hdir & _)]; [eauto|].
    exfalso. exact (Himg p Hp Hdir).
  - eexists. now apply build_payload_text.
Qed.

(** The mode that [run] announces is the mode of the request, except
    for the empty string given as image. *)
Lemma run_announces_mode (image_input : option string) :
  image_input <> Some "" -> run_is_i2v image_input = truthy_arg image_input.
Proof.
  destruct image_input as [p|]; [|reflexivity].
  intros Hne. cbn. destruct (String.eqb_spec p ""); [congruence | reflexivity].
Qed.

Example run_announcement_empty_image :
  run_is_i2v (Some "") = true
  /\ build_payload with_key "a cat walking" (Some "") fresh
     = (Ret (t2v_payload with_key "a cat walking"), fresh).
Proof. split; reflexivity. Qed.

(** A local image file is sent as a data URI. *)
Example build_payload_local_file :
  let st := {| log := []; fs := {[ "cat.JPG" := File [x4d; x61; x6e]%byte ]} |} in
  build_payload with_key "a cat walking" (Some "cat.JPG") st
  = (Ret (i2v_payload with_key "a cat walking" "data:image/jpeg;base64,TWFu"), st).
Proof. reflexivity. Qed.

(** ** The orchestrator *)

Section Orchestrator.

Variable cfg : config.
Variable w : world.

Lemma generate_video_needs_key (prompt : string) (image_input : option string)
    (st st1 : state) (result : json) :
  generate_video cfg w prompt image_input st = (Ret result, st1) ->
  truthy_arg (API_KEY cfg) = true.
Proof.
  unfold generate_video. destruct (truthy_arg (API_KEY cfg)); [reflexivity|].
  discriminate.
Qed.

(** A submission that returned was sent, so [requests] took its
    headers; the header of the status requests is one of them. *)
Lemma generate_video_sends (prompt : string) (image_input : option string)
    (st st1 : state) (result : json) :
  generate_video cfg w prompt image_input st = (Ret result, st1) ->
  headers_refused w (status_headers cfg) = None.
Proof.
  unfold generate_video. destruct (negb (truthy_arg (API_KEY cfg))); [discriminate|].
  unfold bind at 1.
  destruct (build_payload cfg prompt image_input st) as [[payload|e|] st0];
    [|discriminate..].
  unfold bind, requests_post.
  destruct (headers_refused w _) eqn:Hheaders; [discriminate|].
  intros _. cbn [headers_refused] in Hheaders.
  unfold status_headers. cbn [headers_refused].
  destruct (header_refused w "X-DashScope-Async" "enable"); [discriminate|].
  destruct (header_refused w "Authorization" _); [discriminate | reflexivity].
Qed.



(** With a job identifier, [run] polls for that job. *)
Lemma run_with_task_id (fuel : nat) (prompt : string)
    (image_input : option string) (st st1 : state) (result id : json) :
  generate_video cfg w prompt image_input st = (Ret result, st1) ->
  task_id_of result = Some id ->
  run cfg w fuel prompt image_input st =
  (final_result <- wait_for_completion cfg w fuel id 10 ;;
   output <- lift (get final_result "output" (JObj [])) ;;
   status <- lift (get output "task_status" JNull) ;;
   if eq_str status "SUCCEEDED" then
     video_url <- lift (get output "video_url" JNull) ;;
     if truthy video_url then
       path <- download_video cfg w video_url None ;;
       ret (Some path)
     else ret None
   else ret None) st1.
Proof.
  intros Hgen Hid. unfold run. unfold bind at 1. rewrite Hgen.
  unfold task_id_of, output_field in Hid.
  destruct result as [| | | | |kvs]; try discriminate.
  destruct (assoc "output" kvs) as [output|] eqn:Hout; [|discriminate].
  destruct output as [| | | | |okvs]; try discriminate.
  unfold bind at 1, lift at 1. cbn [contains]. rewrite Hout.
  unfold bind at 1. cbn [negb]. unfold bind at 1, lift at 1.
  cbn [get]. rewrite Hout.
  unfold bind at 1, lift at 1. cbn [contains]. rewrite Hid.
  unfold ret at 1. cbn [negb].
  unfold bind at 1, lift at 1. cbn [getitem]. rewrite Hout.
  unfold bind at 1, lift at 1. cbn [getitem]. rewrite Hid.
  reflexivity.
Qed.

(** What [run] reads in the response that ends the polling. *)
Lemma final_response_fields (last : json) (s : job_state) :
  state_of last = Some s ->
  exists okvs,
    get last "output" (JObj []) = Ret (JObj okvs)
    /\ (eq_str (match assoc "task_status" okvs with Some v => v | None => JNull end)
          "SUCCEEDED" = true <-> s = Succeeded)
    /\ (s = Succeeded -> output_field "video_url" last = assoc "video_url" okvs).
Proof.
  unfold state_of, status_of, output_field.
  destruct last as [| | | | |kvs]; try discriminate.
  cbn [get].
  destruct (assoc "output" kvs) as [output|] eqn:Hout.
  - destruct output as [| | | | |okvs]; try discriminate.
    cbn [get]. intros H. cbn in H. injection H as <-.
    exists okvs. split; [reflexivity|]. split; [|reflexivity].
    unfold classify.
    destruct (assoc "task_status" okvs) as [v|]; cbn.
    + destruct (eq_str v "SUCCEEDED"); [tauto|].
      split; [discriminate|].
      destruct (eq_str v "FAILED"); [discriminate|].
      destruct (eq_str v "PENDING"); [discriminate|].
      destruct (eq_str v "RUNNING"); discriminate.
    + split; discriminate.
  - cbn. intros H. injection H as <-.
    exists []. split; [reflexivity|]. split; [split; discriminate | discriminate].
Qed.

(** When the polling ends on a response that is not a success, or on a
    success that carries no location, [run] returns [None] from the
    state in which the polling ended. *)
Lemma run_after_polling_none (fuel : nat) (prompt : string)
    (image_input : option string) (st st1 st2 : state) (result id last : json)
    (s : job_state) :
  generate_video cfg w prompt image_input st = (Ret result, st1) ->
  task_id_of result = Some id ->
  wait_for_completion cfg w fuel id 10 st1 = (Ret last, st2) ->
  state_of last = Some s ->
  s <> Succeeded \/ artifact_location last = None ->
  run cfg w fuel prompt image_input st = (Ret None, st2).
Proof.
  intros Hgen Hid Hwait Hstate Hcase.
  rewrite (run_with_task_id fuel prompt image_input st st1 result id Hgen Hid).
  unfold bind at 1. rewrite Hwait.
  destruct (final_response_fields last s Hstate) as (okvs & Hout & Hsucc & Hurl).
  unfold bind at 1, lift at 1. rewrite Hout.
  unfold bind at 1, lift at 1. cbn [get].
  destruct (eq_str (match assoc "task_status" okvs with Some v => v | None => JNull end)
              "SUCCEEDED") eqn:Heq; [|reflexivity].
  assert (Hs : s = Succeeded) by now apply Hsucc.
  destruct Hcase as [Hne|Hloc]; [contradiction|].
  unfold artifact_location in Hloc. rewrite (Hurl Hs) in Hloc.
  unfold bind at 1, lift at 1.
  destruct (assoc "video_url" okvs) as [v|]; [|reflexivity].
  destruct (truthy v); [discriminate | reflexivity].
Qed.

End Orchestrator.



(** An answer whose [output] is null has no [task_id] either; there the
    membership test of the guard raises. *)
Example run_on_null_output :
  let w := scripted (Some (json_response (JObj [("output", JNull)]))) [] None in
  fst (run with_key w 0 "a cat walking" None fresh) = Raise TypeError.
Proof. reflexivity. Qed.


(** C5, as amended.  For every run in which the polling loop ends in a
    terminal state other than Succeeded (Failed or Unrecognized), the
    polling loop returns the final response, diagnostic detail
    included, after one fetch per response, and [run] returns the bare
    failure value [None], never a download path; no step of the
    download is made and the file system is untouched.  The value that
    [run] returns carries no detail. *)
Theorem failed_job_returns_none (cfg : config) (w : world) (prompt : string)
    (image_input : option string) (st st1 : state) (result id : json)
    (pre : list json) (last : json) :
  generate_video cfg w prompt image_input st = (Ret result, st1) ->
  task_id_of result = Some id ->
  forallb in_progress pre = true ->
  is_terminal last = true ->
  state_of last <> Some Succeeded ->
  serves w id (status_fetches st1) (pre ++ [last]) ->
  let st2 := fetched cfg id (after_rounds cfg id 10 (length pre) st1) in
  (forall fuel, (length pre < fuel)%nat ->
     wait_for_completion cfg w fuel id 10 st1 = (Ret last, st2)
     /\ run cfg w fuel prompt image_input st = (Ret None, st2))
  /\ status_fetches st2 = (status_fetches st + length pre + 1)%nat
  /\ download_steps st2 = download_steps st
  /\ fs st2 = fs st.
Proof.
  intros Hgen Hid Hpre Hlast Hns Hserves st2.
  pose proof (generate_video_needs_key cfg w _ _ _ _ _ Hgen) as Hkey.
  pose proof (generate_video_sends cfg w _ _ _ _ _ Hgen) as Hbearer.
  destruct (generate_video_effects cfg w _ _ _ _ _ Hgen) as (Hf1 & _ & Hd1 & Hfs1).
  destruct (after_rounds_tally cfg id 10 (length pre) st1) as (Hf & _ & Hd & _ & Hfs).
  split; [|split; [|split]].
  - intros fuel Hfuel.
    assert (Hwait : wait_for_completion cfg w fuel id 10 st1 = (Ret last, st2)).
    { apply wait_script; [exact Hkey|exact Hbearer|unfold sleep_max; lia|exact Hpre
                         |exact Hlast|exact Hserves|exact Hfuel]. }
    split; [exact Hwait|].
    destruct (is_terminal_state last Hlast) as (s & Hs & _).
    apply (run_after_polling_none cfg w fuel prompt image_input st st1 st2
             result id last s Hgen Hid Hwait Hs).
    left. intros ->. now apply Hns.
  - unfold st2.
    change (status_fetches (fetched cfg id (after_rounds cfg id 10 (length pre) st1)))
      with (S (status_fetches (after_rounds cfg id 10 (length pre) st1))).
    rewrite Hf, Hf1. lia.
  - unfold st2.
    change (download_steps (fetched cfg id (after_rounds cfg id 10 (length pre) st1)))
      with (download_steps (after_rounds cfg id 10 (length pre) st1)).
    now rewrite Hd.
  - unfold st2.
    change (fs (fetched cfg id (after_rounds cfg id 10 (length pre) st1)))
      with (fs (after_rounds cfg id 10 (length pre) st1)).
    now rewrite Hfs.
Qed.

(** The scripted sequence [Pending, Failed(detail="quota exceeded")]:
    two fetches, the response with its detail out of the loop, [None]
    out of [run], and no download. *)
Lemma failed_job_returns_none_witness :
  let w := scripted (accepted "task-1")
             (answers [pending; failed "quota exceeded"])
             (Some (video_response [x01]%byte)) in
  exists st1 st2,
    wait_for_completion with_key w 2 a_task 10 st1
      = (Ret (failed "quota exceeded"), st2)
    /\ run with_key w 2 "a cat walking" None fresh = (Ret None, st2)
    /\ state_of (failed "quota exceeded") = Some Failed
    /\ error_detail (failed "quota exceeded") = Some (JStr "quota exceeded")
    /\ status_fetches st2 = 2%nat
    /\ download_steps st2 = 0%nat.
Proof.
  intros w.
  destruct (failed_job_returns_none with_key w "a cat walking" None fresh
              (record (post_event with_key (t2v_payload with_key "a cat walking")) fresh)
              (JObj [("output", JObj [("task_id", JStr "task-1")])]) a_task
              [pending] (failed "quota exceeded"))
    as (Hrun & Hf & Hd & _).
  - reflexivity.
  - reflexivity.
  - reflexivity.
  - reflexivity.
  - discriminate.
  - script_served.
  - destruct (Hrun 2%nat) as (Hw & Hr); [cbn; lia|].
    eexists. eexists. split; [exact Hw|]. split; [exact Hr|].
    split; [reflexivity|]. split; [reflexivity|].
    split; [exact Hf | exact Hd].
Defined.

(** C5, as stated, fails: two jobs that fail with different details
    make [run] return the same value, [None], which therefore carries
    neither detail. *)
Lemma failure_value_has_no_detail :
  let w1 := scripted (accepted "task-1") (answers [pending; failed "quota exceeded"]) None in
  let w2 := scripted (accepted "task-1") (answers [pending; failed "content rejected"]) None in
  fst (run with_key w1 5 "a cat walking" None fresh) = Ret None
  /\ fst (run with_key w2 5 "a cat walking" None fresh) = Ret None
  /\ error_detail (failed "quota exceeded") = Some (JStr "quota exceeded")
  /\ error_detail (failed "content rejected") = Some (JStr "content rejected")
  /\ error_detail (failed "quota exceeded") <> error_detail (failed "content rejected").
Proof.
  intros w1 w2. repeat split. discriminate.
Qed.

(** C10.  If the polling loop ends with status SUCCEEDED on a response
    that carries no [video_url] (none, or one that tests false), [run]
    returns the failure value [None] from the state in which the
    polling ended: no step of the download is made and the file system
    is untouched. *)
Theorem succeeded_without_location_returns_none (cfg : config) (w : world)
    (prompt : string) (image_input : option string) (st st1 : state)
    (result id : json) (pre : list json) (last : json) :
  generate_video cfg w prompt image_input st = (Ret result, st1) ->
  task_id_of result = Some id ->
  forallb in_progress pre = true ->
  state_of last = Some Succeeded ->
  artifact_location last = None ->
  serves w id (status_fetches st1) (pre ++ [last]) ->
  let st2 := fetched cfg id (after_rounds cfg id 10 (length pre) st1) in
  (forall fuel, (length pre < fuel)%nat ->
     run cfg w fuel prompt image_input st = (Ret None, st2))
  /\ download_steps st2 = download_steps st
  /\ fs st2 = fs st.
Proof.
  intros Hgen Hid Hpre Hstate Hloc Hserves st2.
  pose proof (generate_video_needs_key cfg w _ _ _ _ _ Hgen) as Hkey.
  pose proof (generate_video_sends cfg w _ _ _ _ _ Hgen) as Hbearer.
  destruct (generate_video_effects cfg w _ _ _ _ _ Hgen) as (_ & _ & Hd1 & Hfs1).
  destruct (after_rounds_tally cfg id 10 (length pre) st1) as (_ & _ & Hd & _ & Hfs).
  split; [|split].
  - intros fuel Hfuel.
    assert (Hlast : is_terminal last = true).
    { unfold is_terminal. now rewrite Hstate. }
    assert (Hwait : wait_for_completion cfg w fuel id 10 st1 = (Ret last, st2)).
    { apply wait_script; [exact Hkey|exact Hbearer|unfold sleep_max; lia|exact Hpre
                         |exact Hlast|exact Hserves|exact Hfuel]. }
    apply (run_after_polling_none cfg w fuel prompt image_input st st1 st2
             result id last Succeeded Hgen Hid Hwait Hstate).
    now right.
  - unfold st2.
    change (download_steps (fetched cfg id (after_rounds cfg id 10 (length pre) st1)))
      with (download_steps (after_rounds cfg id 10 (length pre) st1)).
    now rewrite Hd.
  - unfold st2.
    change (fs (fetched cfg id (after_rounds cfg id 10 (length pre) st1)))
      with (fs (after_rounds cfg id 10 (length pre) st1)).
    now rewrite Hfs.
Qed.

Lemma succeeded_without_location_returns_none_witness :
  let last := status_response "SUCCEEDED" [] in
  let w := scripted (accepted "task-1") (answers [running; last])
             (Some (video_response [x01]%byte)) in
  state_of last = Some Succeeded
  /\ artifact_location last = None
  /\ (exists st2,
        run with_key w 2 "a cat walking" None fresh = (Ret None, st2)
        /\ download_steps st2 = 0%nat /\ fs st2 = ∅).
Proof.
  intros last w. split; [reflexivity|]. split; [reflexivity|].
  destruct (succeeded_without_location_returns_none with_key w "a cat walking" None fresh
              (record (post_event with_key (t2v_payload with_key "a cat walking")) fresh)
              (JObj [("output", JObj [("task_id", JStr "task-1")])]) a_task
              [running] last)
    as (Hrun & Hd & Hfs).
  - reflexivity.
  - reflexivity.
  - reflexivity.
  - reflexivity.
  - reflexivity.
  - script_served.
  - eexists. split; [apply Hrun; cbn; lia|]. split; [exact Hd | exact Hfs].
Defined.

(** ** The downloader *)

Section Strings.

Lemma append_cons (x : ascii) (a b : string) :
  String x a +:+ b = String x (a +:+ b).
Proof. reflexivity. Qed.

Lemma append_assoc (a b c : string) : (a +:+ b) +:+ c = a +:+ (b +:+ c).
Proof.
  induction a as [|x a IH]; [reflexivity|].
  rewrite !append_cons. now f_equal.
Qed.

Lemma prefix_append (a b : string) : String.prefix a (a +:+ b) = true.
Proof.
  induction a as [|x a IH]; [now destruct b|].
  rewrite append_cons. cbn [String.prefix].
  destruct (ascii_dec x x) as [_|Hne]; [exact IH | contradiction].
Qed.

Lemma append_longer (a b : string) : a +:+ b = a -> b = "".
Proof.
  induction a as [|x a IH]; [easy|].
  rewrite append_cons. intros H. injection H as H. now apply IH.
Qed.

Lemma occurs_prefix (k s : string) : String.prefix k s = true -> occurs k s = true.
Proof. intros H. destruct s; cbn [occurs]; now rewrite H. Qed.

Lemma occurs_append (a k b : string) : occurs k (a +:+ (k +:+ b)) = true.
Proof.
  induction a as [|x a IH].
  - change ("" +:+ (k +:+ b)) with (k +:+ b).
    apply occurs_prefix, prefix_append.
  - rewrite append_cons. cbn [occurs]. rewrite IH. apply orb_true_r.
Qed.

Lemma video_name_relative (stamp : string) :
  String.prefix "/" (video_name stamp) = false.
Proof. reflexivity. Qed.

(** A generated destination lies under the directory, holds the
    timestamp, and is not the directory itself. *)
Lemma generated_under (dir stamp : string) :
  String.prefix dir (path_join dir (video_name stamp)) = true.
Proof.
  unfold path_join. rewrite video_name_relative.
  destruct (String.eqb dir "" || ends_with_slash dir); apply prefix_append.
Qed.

Lemma generated_holds_stamp (dir stamp : string) :
  occurs stamp (path_join dir (video_name stamp)) = true.
Proof.
  unfold path_join. rewrite video_name_relative.
  destruct (String.eqb dir "" || ends_with_slash dir); unfold video_name.
  - rewrite <- (append_assoc dir "wan_video_" (stamp +:+ ".mp4")).
    apply occurs_append.
  - rewrite <- (append_assoc "/" "wan_video_" (stamp +:+ ".mp4")).
    rewrite <- (append_assoc dir ("/" +:+ "wan_video_") (stamp +:+ ".mp4")).
    apply occurs_append.
Qed.

Lemma generated_not_dir (dir stamp : string) :
  path_join dir (video_name stamp) <> dir.
Proof.
  unfold path_join. rewrite video_name_relative.
  destruct (String.eqb dir "" || ends_with_slash dir);
    intros H; apply append_longer in H; discriminate H.
Qed.

End Strings.

Section Chunks.

Lemma chunks_upto_concat (n fuel : nat) (body : list byte) :
  (0 < n)%nat -> (length body <= fuel)%nat ->
  concat (chunks_upto fuel n body) = body.
Proof.
  intros Hn. revert body.
  induction fuel as [|fuel IH]; intros body Hlen.
  - destruct body; [reflexivity | cbn in Hlen; lia].
  - destruct body as [|b body]; [reflexivity|].
    cbn [chunks_upto concat]. rewrite IH.
    + apply firstn_skipn.
    + rewrite length_skipn. cbn [length] in *. lia.
Qed.

(** What is written is what was served, chunk after chunk. *)
Lemma iter_content_concat (body : list byte) :
  concat (iter_content 8192 body) = body.
Proof.
  unfold iter_content. apply chunks_upto_concat; [|lia].
  apply Nat.ltb_lt. vm_compute. reflexivity.
Qed.

End Chunks.

Section Download.

Variable cfg : config.
Variable w : world.

Lemma os_makedirs_allowed (path : string) (st : state) :
  makedirs_allowed w st path = true ->
  os_makedirs w path st = (Ret tt, made_dirs path st).
Proof.
  unfold makedirs_allowed, os_makedirs, made_dirs.
  destruct (fs st !! path) as [[|data]|] eqn:Hp; [|discriminate|].
  - intros _. unfold record. now rewrite (insert_id (fs st) path Dir Hp).
  - destruct (String.eqb path ""); [discriminate|].
    destruct (mkdir_refused w path); [discriminate | reflexivity].
Qed.

Lemma os_makedirs_refused (path : string) (st : state) :
  makedirs_allowed w st path = false ->
  exists e, os_makedirs w path st = (Raise e, st).
Proof.
  unfold makedirs_allowed, os_makedirs.
  destruct (fs st !! path) as [[|data]|]; [discriminate|eauto|].
  destruct (String.eqb path ""); [eauto|].
  destruct (mkdir_refused w path); [eauto | discriminate].
Qed.

(** The course of a call once the directory is made. *)
Lemma download_video_course (video_url : json) (output_path : option string)
    (st : state) :
  makedirs_allowed w st (WAN_OUTPUT_DIR cfg) = true ->
  let st1 := made_dirs (WAN_OUTPUT_DIR cfg) st in
  let dest := match output_path with
              | Some p => p
              | None => generated_path cfg w st
              end in
  download_video cfg w video_url output_path st =
  match video_url with
  | JStr u =>
      let st2 := record (HttpGetArtifact u) st1 in
      match artifact w u with
      | Some resp =>
          if status_ok resp then
            match fs st1 !! dest with
            | Some Dir => (Raise (IsADirectoryError dest), st2)
            | _ =>
                if open_refused w dest then (Raise (OSError dest), st2)
                else (Ret dest,
                      {| log := OpenedForWrite dest :: log st2;
                         fs := <[dest := File (content resp)]> (fs st1) |})
            end
          else (Raise (HTTPError (status_code resp)), st2)
      | None =>
          match artifact_failure w u with
          | NotSent e => (Raise e, st1)
          | NoAnswer => (Raise ConnectionError, st2)
          | Broken code delivered e =>
              if negb ((400 <=? code)%Z && (code <? 600)%Z) then
                match fs st1 !! dest with
                | Some Dir => (Raise (IsADirectoryError dest), st2)
                | _ =>
                    if open_refused w dest then (Raise (OSError dest), st2)
                    else (Raise e,
                          {| log := OpenedForWrite dest :: log st2;
                             fs := <[dest := File delivered]> (fs st1) |})
                end
              else (Raise (HTTPError code), st2)
          end
      end
  | _ => (Raise MissingSchema, st1)
  end.
Proof.
  intros Hallowed st1 dest.
  unfold download_video. unfold bind at 1.
  rewrite (os_makedirs_allowed _ _ Hallowed). fold st1.
  unfold bind at 1.
  assert (Hdest : (match output_path with
                   | Some p => ret p
                   | None =>
                       now <- datetime_now w ;;
                       ret (path_join (WAN_OUTPUT_DIR cfg)
                              (video_name (strftime_stamp now)))
                   end) st1 = (Ret dest, st1)).
  { destruct output_path; reflexivity. }
  rewrite Hdest.
  destruct video_url as [| | |u| |]; try reflexivity.
  unfold bind at 1, requests_get_stream.
  destruct (artifact w u) as [resp|].
  - cbn [arrived breaks].
    unfold bind at 1, raise_for_status, status_ok.
    destruct ((400 <=? status_code resp)%Z && (status_code resp <? 600)%Z);
      [reflexivity|].
    cbn [negb]. unfold ret at 1. unfold bind, write_file. cbv beta.
    rewrite iter_content_concat.
    change (fs (record (HttpGetArtifact u) st1)) with (fs st1).
    destruct (fs st1 !! dest) as [[|data]|]; [reflexivity| |];
      destruct (open_refused w dest); reflexivity.
  - destruct (artifact_failure w u) as [e| |code delivered e]; try reflexivity.
    cbn [arrived breaks content status_code].
    unfold bind at 1, raise_for_status. cbn [status_code].
    destruct ((400 <=? code)%Z && (code <? 600)%Z); [reflexivity|].
    cbn [negb]. unfold ret at 1. unfold bind, write_file. cbv beta.
    rewrite iter_content_concat.
    change (fs (record (HttpGetArtifact u) st1)) with (fs st1).
    destruct (fs st1 !! dest) as [[|data]|]; [reflexivity| |];
      destruct (open_refused w dest); reflexivity.
Qed.


End Download.



Section GeneratedDestination.

Variable cfg : config.
Variable w : world.
Variable u : string.
Variable resp : response.

Hypothesis served : artifact w u = Some resp.
Hypothesis served_ok : status_ok resp = true.
Hypothesis may_open :
  forall stamp, open_refused w (path_join (WAN_OUTPUT_DIR cfg) (video_name stamp)) = false.

(** One call without destination, the service and the system going
    along: the video is written at the generated destination. *)
Lemma download_generated (st : state) :
  makedirs_allowed w st (WAN_OUTPUT_DIR cfg) = true ->
  fs st !! generated_path cfg w st <> Some Dir ->
  download_video cfg w (JStr u) None st =
  (Ret (generated_path cfg w st),
   {| log := OpenedForWrite (generated_path cfg w st)
             :: HttpGetArtifact u :: MadeDirs (WAN_OUTPUT_DIR cfg) :: log st;
      fs := <[generated_path cfg w st := File (content resp)]>
              (<[WAN_OUTPUT_DIR cfg := Dir]> (fs st)) |}).
Proof.
  intros Hallowed Hfree.
  rewrite (download_video_course cfg w (JStr u) None st Hallowed).
  cbv zeta. rewrite served, served_ok.
  assert (Hopen : open_refused w (generated_path cfg w st) = false)
    by apply may_open.
  rewrite Hopen.
  assert (Hne : generated_path cfg w st <> WAN_OUTPUT_DIR cfg)
    by apply generated_not_dir.
  cbn [made_dirs fs]. rewrite lookup_insert_ne by congruence.
  destruct (fs st !! generated_path cfg w st) as [[|data]|]; [contradiction| |];
    reflexivity.
Qed.

End GeneratedDestination.

(** ** Further facts *)

(** Making the output directory a second time changes nothing in the
    file system. *)
Lemma os_makedirs_idempotent (w : world) (path : string) (st : state) :
  makedirs_allowed w st path = true ->
  exists st1 st2,
    os_makedirs w path st = (Ret tt, st1)
    /\ os_makedirs w path st1 = (Ret tt, st2)
    /\ fs st2 = fs st1
    /\ fs st1 !! path = Some Dir.
Proof.
  intros Hallowed.
  assert (Hdir : fs (made_dirs path st) !! path = Some Dir) by apply lookup_insert_eq.
  assert (Hagain : makedirs_allowed w (made_dirs path st) path = true).
  { unfold makedirs_allowed. now rewrite Hdir. }
  exists (made_dirs path st), (made_dirs path (made_dirs path st)).
  split; [now apply os_makedirs_allowed|].
  split; [now apply os_makedirs_allowed|].
  split; [|exact Hdir].
  cbn [made_dirs fs]. apply insert_insert_eq.
Qed.

(** The loop has no bound of its own: while the service answers
    RUNNING, every iteration bound is reached with the loop still
    running. *)
Lemma wait_runs_on (cfg : config) (w : world) (task_id : json) (interval : Z)
    (st : state) :
  truthy_arg (API_KEY cfg) = true ->
  headers_refused w (status_headers cfg) = None ->
  (0 <= interval <= sleep_max)%Z ->
  (forall k, fetch_yields w k task_id running) ->
  forall fuel,
    wait_for_completion cfg w fuel task_id interval st =
    (OutOfFuel, after_rounds cfg task_id interval fuel st).
Proof.
  intros Hkey Hbearer Hpos Hrunning fuel.
  apply (wait_still_running cfg w task_id interval Hkey Hbearer Hpos fuel
           (replicate fuel running)).
  - induction fuel as [|fuel IH]; [reflexivity | exact IH].
  - intros k r Hk. apply lookup_replicate in Hk as [-> _]. apply Hrunning.
  - now rewrite length_replicate.
Qed.

(** The two scripted sequences of the specification, for every location
    and every detail. *)
Lemma three_ticks_to_success (cfg : config) (w : world) (task_id : json)
    (interval : Z) (st : state) (location : string) :
  truthy_arg (API_KEY cfg) = true ->
  headers_refused w (status_headers cfg) = None ->
  (0 <= interval <= sleep_max)%Z ->
  serves w task_id (status_fetches st) [pending; running; succeeded location] ->
  exists st',
    (forall fuel, (2 < fuel)%nat ->
       wait_for_completion cfg w fuel task_id interval st
       = (Ret (succeeded location), st'))
    /\ status_fetches st' = (status_fetches st + 3)%nat
    /\ sleeps st' = (sleeps st + 2)%nat
    /\ state_of (succeeded location) = Some Succeeded
    /\ output_field "video_url" (succeeded location) = Some (JStr location).
Proof.
  intros Hkey Hbearer Hpos Hserves.
  exists (fetched cfg task_id (after_rounds cfg task_id interval 2 st)).
  split;
    [|split; [unfold status_fetches, count; cbn; lia|];
      split; [unfold sleeps, count; cbn; lia | split; reflexivity]].
  intros fuel Hfuel.
  apply (wait_script cfg w task_id interval Hkey Hbearer [pending; running]
           (succeeded location) fuel st Hpos eq_refl eq_refl Hserves Hfuel).
Qed.

Lemma two_ticks_to_failure (cfg : config) (w : world) (task_id : json)
    (interval : Z) (st : state) (detail : string) :
  truthy_arg (API_KEY cfg) = true ->
  headers_refused w (status_headers cfg) = None ->
  (0 <= interval <= sleep_max)%Z ->
  serves w task_id (status_fetches st) [pending; failed detail] ->
  exists st',
    (forall fuel, (1 < fuel)%nat ->
       wait_for_completion cfg w fuel task_id interval st
       = (Ret (failed detail), st'))
    /\ status_fetches st' = (status_fetches st + 2)%nat
    /\ sleeps st' = (sleeps st + 1)%nat
    /\ state_of (failed detail) = Some Failed
    /\ error_detail (failed detail) = Some (JStr detail).
Proof.
  intros Hkey Hbearer Hpos Hserves.
  exists (fetched cfg task_id (after_rounds cfg task_id interval 1 st)).
  split;
    [|split; [unfold status_fetches, count; cbn; lia|];
      split; [unfold sleeps, count; cbn; lia | split; reflexivity]].
  intros fuel Hfuel.
  apply (wait_script cfg w task_id interval Hkey Hbearer [pending]
           (failed detail) fuel st Hpos eq_refl eq_refl Hserves Hfuel).
Qed.

(** * More of the program *)

(** ** What the polling loop does and does not do *)

Section PollingEffects.

Variable cfg : config.
Variable w : world.
Variable task_id : json.
Variable interval : Z.

Lemma tally_app (p : event -> bool) (xs ys : list event) :
  tally p (xs ++ ys) = (tally p xs + tally p ys)%nat.
Proof.
  induction xs as [|x xs IH]; [reflexivity|].
  cbn [app tally]. rewrite IH. now destruct (p x).
Qed.

Lemma check_status_effect (st st1 : state) (o : outcome json) :
  check_status cfg w task_id st = (o, st1) ->
  st1 = st \/ st1 = fetched cfg task_id st.
Proof.
  unfold check_status.
  destruct (negb (truthy_arg (API_KEY cfg))).
  { intros H. injection H as _ <-. now left. }
  unfold bind, requests_get_task.
  destruct (headers_refused w _).
  { intros H. injection H as _ <-. now left. }
  destruct (task_status w (status_fetches st) task_id) as [resp|].
  - unfold response_json. destruct (json_body resp);
      intros H; injection H as _ <-; now right.
  - intros H; injection H as _ <-; now right.
Qed.

(** A status request that returns was made. *)
Lemma check_status_fetched (st st1 : state) (r : json) :
  check_status cfg w task_id st = (Ret r, st1) -> st1 = fetched cfg task_id st.
Proof.
  unfold check_status.
  destruct (negb (truthy_arg (API_KEY cfg))); [discriminate|].
  unfold bind, requests_get_task.
  destruct (headers_refused w _); [discriminate|].
  destruct (task_status w (status_fetches st) task_id) as [resp|]; [|discriminate].
  unfold response_json. destruct (json_body resp); [|discriminate].
  intros H. now injection H as _ <-.
Qed.

End PollingEffects.

(** X1.  Whatever the service answers and however the loop ends, all
    that [wait_for_completion] does is to request the status of the
    task it was given, with the key as bearer, and to sleep for the
    interval: it posts nothing, downloads nothing, leaves the file
    system alone, and makes no more status requests than iterations. *)
Theorem polling_only_fetches_and_sleeps (cfg : config) (w : world) (task_id : json)
    (interval : Z) (fuel : nat) (st st' : state) (o : outcome json) :
  wait_for_completion cfg w fuel task_id interval st = (o, st') ->
  exists evs,
    log st' = evs ++ log st
    /\ Forall (fun e =>
                e = HttpGetTask (API_BASE_URL +:+ "/tasks/") task_id
                      [("Authorization", "Bearer " +:+ str_arg (API_KEY cfg))]
                \/ e = Slept interval) evs
    /\ fs st' = fs st
    /\ (tally is_status_fetch evs <= fuel)%nat
    /\ (tally is_sleep evs <= tally is_status_fetch evs)%nat.
Proof.
  revert st. induction fuel as [|fuel IH]; intros st.
  { intros H. injection H as _ <-. exists []; split; [reflexivity|]; split; [constructor|];
     split; [reflexivity|]; cbn; split; lia. }
  cbn [wait_for_completion]. unfold bind at 1.
  destruct (check_status cfg w task_id st) as [[result|e|] st1] eqn:Hc.
  all: pose proof (check_status_effect cfg w task_id st st1 _ Hc) as Hst1.
  all: assert (Hstop : forall o', (o', st1) = (o, st') ->
         exists evs,
           log st' = evs ++ log st
           /\ Forall (fun e =>
                       e = HttpGetTask (API_BASE_URL +:+ "/tasks/") task_id
                             [("Authorization", "Bearer " +:+ str_arg (API_KEY cfg))]
                       \/ e = Slept interval) evs
           /\ fs st' = fs st
           /\ (tally is_status_fetch evs <= S fuel)%nat
           /\ (tally is_sleep evs <= tally is_status_fetch evs)%nat).
  1,3,5: intros o' H; injection H as _ <-; destruct Hst1 as [->| ->];
    [exists []; split; [reflexivity|]; split; [constructor|];
     split; [reflexivity|]; cbn; split; lia
    |eexists [_]; split; [reflexivity|];
     split; [repeat constructor|];
     split; [reflexivity|]; cbn; split; lia].
  2,3: now apply Hstop.
  unfold bind at 1, lift at 1.
  destruct (get result "output" (JObj [])) as [output| |]; [|now apply Hstop..].
  unfold bind at 1, lift at 1.
  destruct (get output "task_status" (JStr "UNKNOWN")) as [status| |];
    [|now apply Hstop..].
  unfold bind at 1, datetime_now.
  destruct (eq_str status "SUCCEEDED"); [now apply Hstop|].
  destruct (eq_str status "FAILED").
  { unfold bind, lift.
    destruct (get output "message" (JStr "不明なエラー")); now apply Hstop. }
  destruct (negb (existsb (eq_str status) ["PENDING"; "RUNNING"]));
    [now apply Hstop|].
  unfold bind, time_sleep.
  destruct ((interval <? -9223372036)%Z || (9223372036 <? interval)%Z);
    [now apply Hstop|].
  destruct (interval <? 0)%Z; [now apply Hstop|].
  intros Hrest. apply IH in Hrest as (evs & Hlog & Hall & Hfs & Hn & Hs).
  cbn [record log fs] in Hlog, Hfs.
  clear Hst1 Hstop.
  pose proof (check_status_fetched cfg w task_id st st1 result Hc) as ->.
  - exists (evs ++ [Slept interval;
                    HttpGetTask (API_BASE_URL +:+ "/tasks/") task_id
                      [("Authorization", "Bearer " +:+ str_arg (API_KEY cfg))]]).
    rewrite <- app_assoc.
    split; [exact Hlog|].
    split; [apply Forall_app; split; [exact Hall|];
            constructor; [now right|];
            constructor; [now left | constructor]|].
    split; [exact Hfs|].
    rewrite !tally_app. cbn [tally is_status_fetch is_sleep]. split; lia.
Qed.

Lemma polling_only_fetches_and_sleeps_witness :
  let w := scripted None (answers [pending; failed "quota exceeded"]) None in
  exists evs st',
    wait_for_completion with_key w 5 a_task 10 fresh = (Ret (failed "quota exceeded"), st')
    /\ log st' = evs ++ []
    /\ fs st' = ∅
    /\ (tally is_status_fetch evs <= 5)%nat.
Proof.
  intros w.
  destruct (wait_for_completion with_key w 5 a_task 10 fresh) as [o st'] eqn:Hw.
  destruct (polling_only_fetches_and_sleeps with_key w a_task 10 5 fresh st' o Hw)
    as (evs & Hlog & _ & Hfs & Hn & _).
  assert (Ho : o = Ret (failed "quota exceeded")).
  { change o with (fst (o, st')). rewrite <- Hw. reflexivity. }
  exists evs, st'. rewrite Ho.
  split; [reflexivity|]. split; [exact Hlog|]. split; [exact Hfs | exact Hn].
Defined.



Section MalformedStatus.

Variable cfg : config.
Variable w : world.
Variable task_id : json.

Hypothesis key_set : truthy_arg (API_KEY cfg) = true.
Hypothesis bearer_ok : headers_refused w (status_headers cfg) = None.



End MalformedStatus.



(** X4.  With an interval that [time.sleep] does not take, the loop
    cannot wait: a first response that is terminal is still returned,
    but on a PENDING or RUNNING one [time.sleep] raises after that
    single status request: [ValueError] for a negative interval down
    to -9223372036 seconds, [OverflowError] for one below that or
    above 9223372036 seconds. *)
Theorem interval_refused_by_sleep (cfg : config) (w : world) (task_id : json)
    (interval : Z) (st : state) (r : json) (fuel : nat) :
  truthy_arg (API_KEY cfg) = true ->
  headers_refused w (status_headers cfg) = None ->
  fetch_yields w (status_fetches st) task_id r ->
  (in_progress r = true ->
   (- sleep_max <= interval < 0)%Z ->
   wait_for_completion cfg w (S fuel) task_id interval st
   = (Raise (ValueError "sleep length must be non-negative"), fetched cfg task_id st))
  /\ (in_progress r = true ->
      (interval < - sleep_max \/ sleep_max < interval)%Z ->
      wait_for_completion cfg w (S fuel) task_id interval st
      = (Raise OverflowError, fetched cfg task_id st))
  /\ (is_terminal r = true ->
      wait_for_completion cfg w (S fuel) task_id interval st
      = (Ret r, fetched cfg task_id st)).
Proof.
  intros Hkey Hbearer Hfetch. unfold sleep_max. split; [|split].
  - intros Hr Hneg. destruct (in_progress_state r Hr) as (s & Hs & Hnt).
    rewrite (wait_iteration cfg w task_id interval Hkey Hbearer fuel st r s Hfetch Hs).
    rewrite Hnt. unfold bind, time_sleep.
    replace (interval <? -9223372036)%Z with false by (symmetry; apply Z.ltb_ge; lia).
    replace (9223372036 <? interval)%Z with false by (symmetry; apply Z.ltb_ge; lia).
    replace (interval <? 0)%Z with true by (symmetry; apply Z.ltb_lt; lia).
    reflexivity.
  - intros Hr Hout. destruct (in_progress_state r Hr) as (s & Hs & Hnt).
    rewrite (wait_iteration cfg w task_id interval Hkey Hbearer fuel st r s Hfetch Hs).
    rewrite Hnt. unfold bind, time_sleep.
    replace ((interval <? -9223372036)%Z || (9223372036 <? interval)%Z) with true;
      [reflexivity|].
    symmetry. apply orb_true_iff.
    destruct Hout as [Hlow|Hhigh]; [left | right]; apply Z.ltb_lt; lia.
  - intros Hr. destruct (is_terminal_state r Hr) as (s & Hs & Ht).
    rewrite (wait_iteration cfg w task_id interval Hkey Hbearer fuel st r s Hfetch Hs).
    now rewrite Ht.
Qed.

Lemma interval_refused_by_sleep_witness :
  wait_for_completion with_key (always pending) 4 a_task (-1) fresh
  = (Raise (ValueError "sleep length must be non-negative"),
     fetched with_key a_task fresh)
  /\ wait_for_completion with_key (always pending) 4 a_task 10000000000 fresh
     = (Raise OverflowError, fetched with_key a_task fresh)
  /\ wait_for_completion with_key (always pending) 4 a_task (-10000000000) fresh
     = (Raise OverflowError, fetched with_key a_task fresh).
Proof.
  split; [|split].
  - destruct (interval_refused_by_sleep with_key (always pending) a_task (-1)
                fresh pending 3) as (Hraise & _).
    + reflexivity.
    + reflexivity.
    + eexists. split; reflexivity.
    + apply Hraise; [reflexivity | unfold sleep_max; lia].
  - destruct (interval_refused_by_sleep with_key (always pending) a_task 10000000000
                fresh pending 3) as (_ & Hraise & _).
    + reflexivity.
    + reflexivity.
    + eexists. split; reflexivity.
    + apply Hraise; [reflexivity | unfold sleep_max; lia].
  - destruct (interval_refused_by_sleep with_key (always pending) a_task (-10000000000)
                fresh pending 3) as (_ & Hraise & _).
    + reflexivity.
    + reflexivity.
    + eexists. split; reflexivity.
    + apply Hraise; [reflexivity | unfold sleep_max; lia].
Defined.

(** ** The orchestrator, from submission to file *)

Section OrchestratorPaths.

Variable cfg : config.
Variable w : world.

Lemma eq_str_true (v : json) (s : string) : eq_str v s = true -> v = JStr s.
Proof.
  destruct v; try discriminate. cbn [eq_str]. intros H.
  apply String.eqb_eq in H. now subst.
Qed.

(** When the polling ends on a success that carries a location, [run]
    goes on with the download of that location. *)
Lemma run_after_polling_download (fuel : nat) (prompt : string)
    (image_input : option string) (st st1 st2 : state) (result id last : json)
    (u : string) :
  generate_video cfg w prompt image_input st = (Ret result, st1) ->
  task_id_of result = Some id ->
  wait_for_completion cfg w fuel id 10 st1 = (Ret last, st2) ->
  state_of last = Some Succeeded ->
  output_field "video_url" last = Some (JStr u) ->
  u <> "" ->
  run cfg w fuel prompt image_input st =
  (path <- download_video cfg w (JStr u) None ;; ret (Some path)) st2.
Proof.
  intros Hgen Hid Hwait Hstate Hurl Hu.
  rewrite (run_with_task_id cfg w fuel prompt image_input st st1 result id Hgen Hid).
  unfold bind at 1. rewrite Hwait.
  destruct (final_response_fields last Succeeded Hstate) as (okvs & Hout & Hsucc & Hfield).
  unfold bind at 1, lift at 1. rewrite Hout.
  unfold bind at 1, lift at 1. cbn [get].
  rewrite (proj2 Hsucc eq_refl).
  unfold bind at 1, lift at 1.
  rewrite <- (Hfield eq_refl), Hurl. cbn [truthy].
  destruct (String.eqb_spec u "") as [->|_]; [contradiction | reflexivity].
Qed.

(** A path that [download_video] returns is the destination of the
    call, and names a file that holds what was served for a location,
    under a success status. *)
Lemma download_video_returns (v : json) (output_path : option string)
    (st st' : state) (p : string) :
  download_video cfg w v output_path st = (Ret p, st') ->
  exists u resp,
    v = JStr u /\ artifact w u = Some resp /\ status_ok resp = true
    /\ fs st' !! p = Some (File (content resp))
    /\ fs st' !! WAN_OUTPUT_DIR cfg = Some Dir
    /\ p = match output_path with
           | Some q => q
           | None => generated_path cfg w st
           end
    /\ log st' = [OpenedForWrite p; HttpGetArtifact u; MadeDirs (WAN_OUTPUT_DIR cfg)]
                 ++ log st.
Proof.
  intros Hcall.
  destruct (makedirs_allowed w st (WAN_OUTPUT_DIR cfg)) eqn:Hallowed.
  - rewrite (download_video_course cfg w v output_path st Hallowed) in Hcall.
    cbv zeta in Hcall.
    destruct v as [| | |u| |]; try discriminate.
    set (dest := match output_path with
                 | Some q => q
                 | None => generated_path cfg w st
                 end) in *.
    destruct (artifact w u) as [resp|] eqn:Hart.
    2: { destruct (artifact_failure w u) as [e| |code delivered e]; try discriminate.
         destruct (negb ((400 <=? code)%Z && (code <? 600)%Z)); [|discriminate].
         destruct (fs (made_dirs (WAN_OUTPUT_DIR cfg) st) !! dest) as [[|data]|];
           [discriminate| |];
           destruct (open_refused w dest); discriminate. }
    destruct (status_ok resp) eqn:Hok; [|discriminate].
    assert (Hdir : fs (made_dirs (WAN_OUTPUT_DIR cfg) st) !! WAN_OUTPUT_DIR cfg
                   = Some Dir) by apply lookup_insert_eq.
    destruct (fs (made_dirs (WAN_OUTPUT_DIR cfg) st) !! dest) as [[|data]|] eqn:Hdest;
      [discriminate| |].
    all: destruct (open_refused w dest); [discriminate|].
    all: injection Hcall as <- <-.
    all: exists u, resp; split; [reflexivity|]; split; [exact Hart|];
      split; [exact Hok|]; cbn [fs]; split; [apply lookup_insert_eq|].
    all: split; [|split; reflexivity].
    all: rewrite lookup_insert_ne; [exact Hdir|].
    all: intros Heq; rewrite Heq in Hdest; congruence.
  - destruct (os_makedirs_refused w (WAN_OUTPUT_DIR cfg) st Hallowed) as (e & He).
    unfold download_video in Hcall. unfold bind at 1 in Hcall.
    rewrite He in Hcall. discriminate.
Qed.

(** [run] returns a path only out of the download of the location that
    the polling reported, for the task that the submission announced. *)
Lemma run_returns_path (fuel : nat) (prompt : string)
    (image_input : option string) (st st' : state) (p : string) :
  run cfg w fuel prompt image_input st = (Ret (Some p), st') ->
  exists result st1 id final st2 u,
    generate_video cfg w prompt image_input st = (Ret result, st1)
    /\ task_id_of result = Some id
    /\ wait_for_completion cfg w fuel id 10 st1 = (Ret final, st2)
    /\ state_of final = Some Succeeded
    /\ output_field "video_url" final = Some (JStr u)
    /\ download_video cfg w (JStr u) None st2 = (Ret p, st').
Proof.
  unfold run. unfold bind at 1.
  destruct (generate_video cfg w prompt image_input st) as [[result|e|] st1] eqn:Hgen;
    [|discriminate..].
  unfold bind at 1, lift at 1.
  destruct (contains "output" result) as [has_output| |]; [|discriminate..].
  unfold bind at 1.
  destruct (negb has_output); [unfold ret; discriminate|].
  unfold bind at 1, lift at 1.
  destruct (get result "output" (JObj [])) as [output| |]; [|discriminate..].
  unfold bind at 1, lift at 1.
  destruct (contains "task_id" output) as [has_id| |]; [|discriminate..].
  unfold ret at 1.
  destruct (negb has_id); [unfold ret; discriminate|].
  unfold bind at 1, lift at 1.
  destruct (getitem result "output") as [output'| |] eqn:Hitem; [|discriminate..].
  unfold bind at 1, lift at 1.
  destruct (getitem output' "task_id") as [id| |] eqn:Hid; [|discriminate..].
  unfold bind at 1.
  destruct (wait_for_completion cfg w fuel id 10 st1) as [[final|e|] st2] eqn:Hwait;
    [|discriminate..].
  unfold bind at 1, lift at 1.
  destruct (get final "output" (JObj [])) as [out| |] eqn:Hout; [|discriminate..].
  unfold bind at 1, lift at 1.
  destruct (get out "task_status" JNull) as [status| |] eqn:Hstatus; [|discriminate..].
  destruct (eq_str status "SUCCEEDED") eqn:Heq; [|unfold ret; discriminate].
  unfold bind at 1, lift at 1.
  destruct (get out "video_url" JNull) as [v| |] eqn:Hv; [|discriminate..].
  destruct (truthy v); [|unfold ret; discriminate].
  unfold bind at 1.
  destruct (download_video cfg w v None st2) as [[path|e|] st3] eqn:Hdown;
    [|discriminate..].
  unfold ret. intros H. injection H as -> ->.
  destruct (download_video_returns v None st2 st' p Hdown) as (u & resp & -> & _).
  apply eq_str_true in Heq. subst status.
  assert (Htask : task_id_of result = Some id).
  { unfold task_id_of, output_field.
    destruct result as [| | | | |kvs]; try discriminate Hitem.
    cbn [getitem] in Hitem.
    destruct (assoc "output" kvs) as [x|]; [|discriminate].
    injection Hitem as ->.
    destruct output' as [| | | | |okvs]; try discriminate Hid.
    cbn [getitem] in Hid.
    destruct (assoc "task_id" okvs); [|discriminate]. now injection Hid as ->. }
  exists result, st1, id, final, st2, u.
  split; [reflexivity|]. split; [exact Htask|]. split; [exact Hwait|].
  destruct final as [| | | | |kvs]; try discriminate Hout.
  cbn [get] in Hout. injection Hout as Hout.
  destruct out as [| | | | |okvs]; try discriminate Hstatus.
  cbn [get] in Hstatus, Hv. injection Hstatus as Hstatus. injection Hv as Hv.
  unfold state_of, status_of, output_field. cbn [get].
  destruct (assoc "output" kvs) as [x|].
  - subst x. cbn [get].
    destruct (assoc "task_status" okvs) as [x|]; [|discriminate].
    subst x.
    destruct (assoc "video_url" okvs) as [x|]; [|discriminate].
    subst x. split; [reflexivity|]. split; [reflexivity | exact Hdown].
  - injection Hout as <-. discriminate Hstatus.
Qed.

End OrchestratorPaths.

(** X5.  The whole course of a successful run: the submission is
    answered with a job identifier, the status responses are PENDING
    or RUNNING until one says SUCCEEDED and carries a non-empty
    [video_url], the artifact is served with a success status and the
    system lets the directory be made and the file be written.  Then
    [run] returns the generated destination under the output
    directory, the file there holds exactly the bytes served, and the
    status was requested once per response. *)
Theorem run_downloads_on_success (cfg : config) (w : world) (prompt : string)
    (image_input : option string) (st st1 : state) (result id : json)
    (pre : list json) (last : json) (u : string) (resp : response) :
  generate_video cfg w prompt image_input st = (Ret result, st1) ->
  task_id_of result = Some id ->
  forallb in_progress pre = true ->
  state_of last = Some Succeeded ->
  output_field "video_url" last = Some (JStr u) ->
  u <> "" ->
  serves w id (status_fetches st1) (pre ++ [last]) ->
  artifact w u = Some resp ->
  status_ok resp = true ->
  makedirs_allowed w st (WAN_OUTPUT_DIR cfg) = true ->
  (forall stamp,
     open_refused w (path_join (WAN_OUTPUT_DIR cfg) (video_name stamp)) = false
     /\ fs st !! path_join (WAN_OUTPUT_DIR cfg) (video_name stamp) <> Some Dir) ->
  let st2 := fetched cfg id (after_rounds cfg id 10 (length pre) st1) in
  let path := generated_path cfg w st2 in
  exists st3,
    (forall fuel, (length pre < fuel)%nat ->
       run cfg w fuel prompt image_input st = (Ret (Some path), st3))
    /\ fs st3 !! path = Some (File (content resp))
    /\ fs st3 !! WAN_OUTPUT_DIR cfg = Some Dir
    /\ String.prefix (WAN_OUTPUT_DIR cfg) path = true
    /\ status_fetches st3 = (status_fetches st + length pre + 1)%nat.
Proof.
  intros Hgen Hid Hpre Hstate Hurl Hu Hserves Hart Hok Hallowed Hsys st2 path.
  pose proof (generate_video_needs_key cfg w _ _ _ _ _ Hgen) as Hkey.
  pose proof (generate_video_sends cfg w _ _ _ _ _ Hgen) as Hbearer.
  destruct (generate_video_effects cfg w _ _ _ _ _ Hgen) as (Hf1 & _ & _ & Hfs1).
  destruct (after_rounds_tally cfg id 10 (length pre) st1) as (Hf & _ & _ & _ & Hfs).
  assert (Hfs2 : fs st2 = fs st) by (cbn [st2 fetched record fs]; congruence).
  assert (Hallowed2 : makedirs_allowed w st2 (WAN_OUTPUT_DIR cfg) = true).
  { unfold makedirs_allowed in *. now rewrite Hfs2. }
  assert (Hfree2 : fs st2 !! generated_path cfg w st2 <> Some Dir).
  { rewrite Hfs2. apply Hsys. }
  assert (Hopen : forall stamp,
            open_refused w (path_join (WAN_OUTPUT_DIR cfg) (video_name stamp)) = false)
    by (intros stamp; apply Hsys).
  pose proof (download_generated cfg w u resp Hart Hok Hopen st2 Hallowed2 Hfree2)
    as Hdown.
  set (st3 := {| log := OpenedForWrite (generated_path cfg w st2)
                        :: HttpGetArtifact u :: MadeDirs (WAN_OUTPUT_DIR cfg) :: log st2;
                 fs := <[generated_path cfg w st2 := File (content resp)]>
                         (<[WAN_OUTPUT_DIR cfg := Dir]> (fs st2)) |}) in *.
  exists st3. split; [|split; [|split; [|split]]].
  - intros fuel Hfuel.
    assert (Hlast : is_terminal last = true).
    { unfold is_terminal. now rewrite Hstate. }
    assert (Hwait : wait_for_completion cfg w fuel id 10 st1 = (Ret last, st2)).
    { apply wait_script; [exact Hkey|exact Hbearer|unfold sleep_max; lia|exact Hpre
                         |exact Hlast|exact Hserves|exact Hfuel]. }
    rewrite (run_after_polling_download cfg w fuel prompt image_input st st1 st2
               result id last u Hgen Hid Hwait Hstate Hurl Hu).
    unfold bind. rewrite Hdown. reflexivity.
  - unfold st3. cbn [fs]. apply lookup_insert_eq.
  - unfold st3. cbn [fs]. rewrite lookup_insert_ne by apply generated_not_dir.
    apply lookup_insert_eq.
  - apply generated_under.
  - change (status_fetches st3)
      with (S (status_fetches (after_rounds cfg id 10 (length pre) st1))).
    rewrite Hf, Hf1. lia.
Qed.

Lemma run_downloads_on_success_witness :
  let w := scripted (accepted "task-1")
             (answers [pending; running; succeeded "https://cdn.example/v.mp4"])
             (Some (video_response [x01; x02; x03]%byte)) in
  exists st3,
    run with_key w 3 "a cat walking" None fresh
    = (Ret (Some "./output/wan_video_20260309_120007.mp4"), st3)
    /\ fs st3 !! "./output/wan_video_20260309_120007.mp4"
       = Some (File [x01; x02; x03]%byte)
    /\ status_fetches st3 = 3%nat.
Proof.
  intros w.
  destruct (run_downloads_on_success with_key w "a cat walking" None fresh
              (record (post_event with_key (t2v_payload with_key "a cat walking")) fresh)
              (JObj [("output", JObj [("task_id", JStr "task-1")])]) a_task
              [pending; running] (succeeded "https://cdn.example/v.mp4")
              "https://cdn.example/v.mp4" (video_response [x01; x02; x03]%byte))
    as (st3 & Hrun & Hfile & _ & _ & Hf).
  - reflexivity.
  - reflexivity.
  - reflexivity.
  - reflexivity.
  - reflexivity.
  - discriminate.
  - script_served.
  - reflexivity.
  - reflexivity.
  - reflexivity.
  - intros stamp. split; [reflexivity|].
    change (fs fresh) with (∅ : gmap string node).
    rewrite lookup_empty. discriminate.
  - exists st3. split; [apply Hrun; cbn; lia|]. split; [exact Hfile | exact Hf].
Defined.

(** X6.  [run] never reports a path without a file behind it: whenever
    it returns a path, the submission had announced a task, the polling
    loop, started for that task in the state the submission left, had
    returned a response with status SUCCEEDED, the location in that
    response had been downloaded from the state the polling left, into
    the destination generated there, which is the path returned; the
    artifact had been served for that location with a success status,
    the file at the path holds the bytes served and the output
    directory exists. *)
Theorem run_path_means_file (cfg : config) (w : world) (fuel : nat)
    (prompt : string) (image_input : option string) (st st' : state) (p : string) :
  run cfg w fuel prompt image_input st = (Ret (Some p), st') ->
  exists result st1 id final st2 u resp,
    generate_video cfg w prompt image_input st = (Ret result, st1)
    /\ task_id_of result = Some id
    /\ wait_for_completion cfg w fuel id 10 st1 = (Ret final, st2)
    /\ state_of final = Some Succeeded
    /\ output_field "video_url" final = Some (JStr u)
    /\ download_video cfg w (JStr u) None st2 = (Ret p, st')
    /\ p = generated_path cfg w st2
    /\ artifact w u = Some resp
    /\ status_ok resp = true
    /\ fs st' !! p = Some (File (content resp))
    /\ fs st' !! WAN_OUTPUT_DIR cfg = Some Dir.
Proof.
  intros Hrun.
  destruct (run_returns_path cfg w fuel prompt image_input st st' p Hrun)
    as (result & st1 & id & final & st2 & u & Hgen & Hid & Hwait & Hstate & Hurl & Hdown).
  destruct (download_video_returns cfg w (JStr u) None st2 st' p Hdown)
    as (u' & resp & Hu & Hart & Hok & Hfile & Hdir & Hp & _).
  injection Hu as <-.
  exists result, st1, id, final, st2, u, resp. repeat split; assumption.
Qed.

Lemma run_path_means_file_witness :
  let w := scripted (accepted "task-1")
             (answers [succeeded "https://cdn.example/v.mp4"])
             (Some (video_response [x01; x02; x03]%byte)) in
  exists st' final,
    run with_key w 1 "a cat walking" None fresh
    = (Ret (Some "./output/wan_video_20260309_120007.mp4"), st')
    /\ output_field "video_url" final = Some (JStr "https://cdn.example/v.mp4")
    /\ fs st' !! "./output/wan_video_20260309_120007.mp4"
       = Some (File [x01; x02; x03]%byte)
    /\ fs st' !! "./output" = Some Dir.
Proof.
  intros w.
  destruct (run with_key w 1 "a cat walking" None fresh) as [o st'] eqn:Hrun.
  assert (Ho : o = Ret (Some "./output/wan_video_20260309_120007.mp4")).
  { change o with (fst (o, st')). rewrite <- Hrun. reflexivity. }
  subst o.
  destruct (run_path_means_file with_key w 1 "a cat walking" None fresh st' _ Hrun)
    as (result & st1 & id & final & st2 & u & resp
        & Hgen & Hid & Hwait & Hstate & Hurl & Hdown & Hp & Hart & Hok & Hfile & Hdir).
  assert (Hresp : resp = video_response [x01; x02; x03]%byte).
  { cbn in Hart. now injection Hart as <-. }
  assert (Hresult : result = JObj [("output", JObj [("task_id", JStr "task-1")])]).
  { cbn in Hgen. now injection Hgen as <- _. }
  assert (Hst1 : st1 = record (post_event with_key (t2v_payload with_key "a cat walking"))
                         fresh).
  { cbn in Hgen. now injection Hgen as _ <-. }
  subst result st1. cbn in Hid. injection Hid as <-.
  assert (Hfinal : final = succeeded "https://cdn.example/v.mp4").
  { cbn in Hwait. now injection Hwait as <- _. }
  subst final. cbn in Hurl. injection Hurl as <-.
  exists st', (succeeded "https://cdn.example/v.mp4").
  split; [reflexivity|]. split; [reflexivity|].
  rewrite Hresp in Hfile. split; [exact Hfile | exact Hdir].
Defined.

(** X7.  A submission that fails leaves [run] as the exception it is.
    When [requests] does not take the key as a header value, that is
    the exception with which it refuses, and nothing is sent.  When it does, the exception
    is [ConnectionError] if the POST gets no response and
    [JSONDecodeError] if the answer is not JSON; the POST is then the
    only network call made.  Nothing is polled and the file system is
    untouched. *)
Theorem submission_failure_leaves_run (cfg : config) (w : world) (prompt : string)
    (image_input : option string) (st : state) (payload : json) :
  truthy_arg (API_KEY cfg) = true ->
  build_payload cfg prompt image_input st = (Ret payload, st) ->
  let st1 := record (post_event cfg payload) st in
  (forall e, headers_refused w (submission_headers cfg) = Some e ->
   forall fuel, run cfg w fuel prompt image_input st = (Raise e, st))
  /\ (headers_refused w (submission_headers cfg) = None ->
      submit w payload = None ->
      forall fuel, run cfg w fuel prompt image_input st = (Raise ConnectionError, st1))
  /\ (headers_refused w (submission_headers cfg) = None ->
      forall resp, submit w payload = Some resp -> json_body resp = None ->
      forall fuel, run cfg w fuel prompt image_input st = (Raise JSONDecodeError, st1))
  /\ network_calls st1 = S (network_calls st)
  /\ status_fetches st1 = status_fetches st
  /\ fs st1 = fs st.
Proof.
  intros Hkey Hbuild st1.
  split; [|split; [|split; [|repeat split]]].
  - intros e Hrefused fuel. unfold run. unfold bind at 1.
    now rewrite (generate_video_refused cfg w prompt image_input st payload e
                   Hkey Hrefused Hbuild).
  - intros Hheaders Hnone fuel. unfold run. unfold bind at 1.
    rewrite (generate_video_posts cfg w prompt image_input st payload
               Hkey Hheaders Hbuild).
    unfold posted. now rewrite Hnone.
  - intros Hheaders resp Hresp Hbody fuel. unfold run. unfold bind at 1.
    rewrite (generate_video_posts cfg w prompt image_input st payload
               Hkey Hheaders Hbuild).
    unfold posted. now rewrite Hresp, Hbody.
Qed.

Lemma submission_failure_leaves_run_witness :
  let w := scripted None (answers [succeeded "https://cdn.example/v.mp4"]) None in
  let st1 := record (post_event with_key (t2v_payload with_key "a cat walking")) fresh in
  run with_key w 9 "a cat walking" None fresh = (Raise ConnectionError, st1)
  /\ network_calls st1 = 1%nat
  /\ status_fetches st1 = 0%nat.
Proof.
  intros w st1.
  destruct (submission_failure_leaves_run with_key w "a cat walking" None fresh
              (t2v_payload with_key "a cat walking"))
    as (_ & Hraise & _ & Hn & Hf & _).
  - reflexivity.
  - reflexivity.
  - split; [apply Hraise; reflexivity|]. split; [exact Hn | exact Hf].
Defined.

(** X8.  Without an API key nothing happens at all: [run], and [main]
    whenever it is given a prompt, raise the missing-key error in the
    state they were called in, before any request, sleep or file
    operation. *)
Theorem no_key_no_effect (cfg : config) (w : world) (fuel : nat) (st : state) :
  truthy_arg (API_KEY cfg) = false ->
  (forall prompt image_input,
     run cfg w fuel prompt image_input st = (Raise key_missing, st))
  /\ (forall argv, (2 <= length argv)%nat ->
        main cfg w fuel argv st = (Raise key_missing, st)).
Proof.
  intros Hkey.
  assert (Hrun : forall prompt image_input,
            run cfg w fuel prompt image_input st = (Raise key_missing, st)).
  { intros prompt image_input. unfold run. unfold bind at 1.
    unfold generate_video. now rewrite Hkey. }
  split; [exact Hrun|].
  intros argv Hlen.
  destruct argv as [|prog [|first [|second rest]]]; cbn [length] in Hlen; try lia.
  - unfold main. cbn. unfold bind. now rewrite Hrun.
  - unfold main. cbn. unfold bind. now rewrite Hrun.
Qed.

Lemma no_key_no_effect_witness :
  let w := scripted (accepted "task-1") [] None in
  main (default_config (Some "")) w 5 ["wan_video.py"; "cat.png"; "a cat walking"] fresh
  = (Raise key_missing, fresh).
Proof.
  intros w.
  destruct (no_key_no_effect (default_config (Some "")) w 5 fresh) as (_ & Hmain).
  - reflexivity.
  - apply Hmain. cbn. lia.
Defined.

(** X9.  The exit of the command line.  Without a prompt [main] exits
    with status 1 and does nothing else.  With arguments, the first is
    the prompt if it is alone, otherwise the first is the image and the
    second the prompt, further arguments being ignored; and whatever
    [run] returns, a path or the failure value [None], [main] returns
    normally in the same state: a failed job does not change the exit
    status. *)
Theorem cli_exit_status (cfg : config) (w : world) (fuel : nat) (st : state) :
  (forall argv, (length argv < 2)%nat ->
     main cfg w fuel argv st = (Raise (SystemExit 1), st))
  /\ (forall prog first rest r st',
        run cfg w fuel
          (match rest with [] => first | second :: _ => second end)
          (match rest with [] => None | _ :: _ => Some first end) st
        = (Ret r, st') ->
        main cfg w fuel (prog :: first :: rest) st = (Ret tt, st')).
Proof.
  split.
  - intros argv Hlen.
    destruct argv as [|prog [|first rest]]; [reflexivity|reflexivity|].
    cbn [length] in Hlen. lia.
  - intros prog first rest r st' Hrun.
    destruct rest as [|second rest]; unfold main; cbn; unfold bind;
      now rewrite Hrun.
Qed.

(** The job fails; the command still ends normally. *)
Lemma cli_exit_status_witness :
  let w := scripted (accepted "task-1") (answers [failed "quota exceeded"]) None in
  exists st',
    run with_key w 2 "a cat walking" (Some "https://example.com/cat.png") fresh
    = (Ret None, st')
    /\ main with_key w 2
         ["wan_video.py"; "https://example.com/cat.png"; "a cat walking"; "extra"] fresh
       = (Ret tt, st')
    /\ main with_key w 2 ["wan_video.py"] fresh = (Raise (SystemExit 1), fresh).
Proof.
  intros w.
  destruct (cli_exit_status with_key w 2 fresh) as (Husage & Hmain).
  destruct (run with_key w 2 "a cat walking" (Some "https://example.com/cat.png") fresh)
    as [o st'] eqn:Hrun.
  assert (Ho : o = Ret None).
  { change o with (fst (o, st')). rewrite <- Hrun. reflexivity. }
  subst o. exists st'. split; [reflexivity|]. split.
  - apply (Hmain "wan_video.py" "https://example.com/cat.png"
             ["a cat walking"; "extra"] None st'). exact Hrun.
  - apply Husage. cbn. lia.
Defined.

(** ** The downloader: statuses and destinations *)



(** X11.  With a destination given, a call of [download_video] that
    returns has returned that very path, whatever the clock says, and
    the file there holds exactly the bytes served for the location,
    under a success status; all that the call has done is to make the
    output directory, to request the artifact and to open that
    destination.  Given the output directory itself as destination,
    the call raises [IsADirectoryError] after the request was made. *)
Theorem download_to_given_path (cfg : config) (w : world) (v : json)
    (p : string) (st : state) :
  (forall q st',
     download_video cfg w v (Some p) st = (Ret q, st') ->
     q = p
     /\ exists u resp,
          v = JStr u /\ artifact w u = Some resp /\ status_ok resp = true
          /\ fs st' !! p = Some (File (content resp))
          /\ log st' = [OpenedForWrite p; HttpGetArtifact u;
                        MadeDirs (WAN_OUTPUT_DIR cfg)] ++ log st)
  /\ (forall u resp,
        v = JStr u ->
        makedirs_allowed w st (WAN_OUTPUT_DIR cfg) = true ->
        artifact w u = Some resp ->
        status_ok resp = true ->
        download_video cfg w v (Some (WAN_OUTPUT_DIR cfg)) st
        = (Raise (IsADirectoryError (WAN_OUTPUT_DIR cfg)),
           record (HttpGetArtifact u) (made_dirs (WAN_OUTPUT_DIR cfg) st))).
Proof.
  split.
  - intros q st' Hcall.
    destruct (download_video_returns cfg w v (Some p) st st' q Hcall)
      as (u & resp & Hv & Hart & Hok & Hfile & _ & Hq & Hlog).
    subst q. split; [reflexivity|].
    exists u, resp. repeat split; assumption.
  - intros u resp -> Hallowed Hart Hok.
    rewrite (download_video_course cfg w (JStr u) (Some (WAN_OUTPUT_DIR cfg)) st
               Hallowed).
    cbv zeta. rewrite Hart, Hok.
    cbn [made_dirs fs]. now rewrite lookup_insert_eq.
Qed.

Lemma download_to_given_path_witness :
  let w := scripted None [] (Some (video_response [x01; x02; x03]%byte)) in
  let st := {| log := []; fs := {[ "clip.mp4" := File [xff]%byte ]} |} in
  let st' := {| log := [OpenedForWrite "clip.mp4";
                        HttpGetArtifact "https://cdn.example/v.mp4";
                        MadeDirs "./output"];
                fs := <["clip.mp4" := File [x01; x02; x03]%byte]>
                        (<["./output" := Dir]> (fs st)) |} in
  download_video with_key w (JStr "https://cdn.example/v.mp4") (Some "clip.mp4") st
  = (Ret "clip.mp4", st')
  /\ fs st' !! "clip.mp4" = Some (File [x01; x02; x03]%byte)
  /\ download_video with_key w (JStr "https://cdn.example/v.mp4") (Some "./output") st
     = (Raise (IsADirectoryError "./output"),
        record (HttpGetArtifact "https://cdn.example/v.mp4") (made_dirs "./output" st)).
Proof.
  intros w st st'.
  destruct (download_to_given_path with_key w (JStr "https://cdn.example/v.mp4")
              "clip.mp4" st) as (Hgiven & _).
  destruct (download_to_given_path with_key w (JStr "https://cdn.example/v.mp4")
              "./output" st) as (_ & Hdir).
  assert (Hcall : download_video with_key w (JStr "https://cdn.example/v.mp4")
                    (Some "clip.mp4") st = (Ret "clip.mp4", st')) by reflexivity.
  destruct (Hgiven "clip.mp4" st' Hcall) as (_ & u & resp & Hv & Hart & _ & Hfile & _).
  injection Hv as <-. cbn in Hart. injection Hart as <-.
  split; [exact Hcall|]. split; [exact Hfile|].
  apply (Hdir "https://cdn.example/v.mp4" (video_response [x01; x02; x03]%byte));
    reflexivity.
Defined.

(** ** The image encoder *)

Example b64decode_padded : b64decode "TWE=" = Some [x4d; x61]%byte.
Proof. reflexivity. Qed.

Section Base64.

Local Open Scope N_scope.

Lemma split_div (k x : N) : k <> 0 -> x = k * (x / k) + x mod k /\ x mod k < k.
Proof. intros Hk. split; [now apply N.div_mod | now apply N.mod_lt]. Qed.

Lemma b64_group_digits (n : N) :
  n < 16777216 ->
  b64_group ((n / 262144) mod 64) ((n / 4096) mod 64) ((n / 64) mod 64) (n mod 64) = n.
Proof.
  intros Hn. unfold b64_group.
  destruct (split_div 64 n) as (H0 & L0); [discriminate|].
  destruct (split_div 64 (n / 64)) as (H1 & L1); [discriminate|].
  destruct (split_div 64 (n / 4096)) as (H2 & L2); [discriminate|].
  assert (E1 : n / 64 / 64 = n / 4096) by (now rewrite N.Div0.div_div).
  assert (E2 : n / 4096 / 64 = n / 262144) by (now rewrite N.Div0.div_div).
  assert (E3 : (n / 262144) mod 64 = n / 262144).
  { apply N.mod_small. apply N.Div0.div_lt_upper_bound. exact Hn. }
  rewrite E1 in H1. rewrite E2 in H2. rewrite E3.
  clear E1 E2 E3.
  remember (n / 64) as q1 eqn:Q1. remember (n / 4096) as q2 eqn:Q2.
  remember (n / 262144) as q3 eqn:Q3. remember (n mod 64) as r0 eqn:R0.
  remember (q1 mod 64) as r1 eqn:R1. remember (q2 mod 64) as r2 eqn:R2.
  clear Q1 Q2 Q3 R0 R1 R2. lia.
Qed.

Lemma bytes_of_group (a b c : byte) :
  let n := Byte.to_N a * 65536 + Byte.to_N b * 256 + Byte.to_N c in
  n < 16777216
  /\ byte_of (n / 65536) = a /\ byte_of (n / 256) = b /\ byte_of n = c.
Proof.
  intros n.
  pose proof (Byte.to_N_bounded a) as Ha.
  pose proof (Byte.to_N_bounded b) as Hb.
  pose proof (Byte.to_N_bounded c) as Hc.
  assert (Hn : n < 16777216) by (subst n; lia).
  split; [exact Hn|].
  destruct (split_div 256 n) as (H0 & L0); [discriminate|].
  destruct (split_div 256 (n / 256)) as (H1 & L1); [discriminate|].
  assert (E1 : n / 256 / 256 = n / 65536) by (now rewrite N.Div0.div_div).
  assert (E2 : (n / 65536) mod 256 = n / 65536).
  { apply N.mod_small. apply N.Div0.div_lt_upper_bound. exact Hn. }
  rewrite E1 in H1.
  assert (Hall : n / 65536 = Byte.to_N a /\ (n / 256) mod 256 = Byte.to_N b
                 /\ n mod 256 = Byte.to_N c).
  { clear E1 E2.
    remember (n / 256) as q1 eqn:Q1. remember (n / 65536) as q2 eqn:Q2.
    remember (n mod 256) as r0 eqn:R0. remember (q1 mod 256) as r1 eqn:R1.
    clear Q1 Q2 R0 R1. subst n. lia. }
  destruct Hall as (Ea & Eb & Ec).
  unfold byte_of. rewrite E2, Ea, Eb, Ec, !Byte.of_to_N. now repeat split.
Qed.

Lemma alphabet_position (k : nat) :
  (k < 64)%nat ->
  b64_value (nth k b64_alphabet "="%char) = Some (N.of_nat k)
  /\ Ascii.eqb (nth k b64_alphabet "="%char) "=" = false.
Proof.
  do 64 (destruct k as [|k]; [split; reflexivity|]). lia.
Qed.

Lemma b64_digit_spec (n : N) :
  b64_value (b64_digit n) = Some (n mod 64)
  /\ Ascii.eqb (b64_digit n) "=" = false.
Proof.
  unfold b64_digit.
  assert (Hlt : (N.to_nat (n mod 64) < 64)%nat).
  { pose proof (N.mod_lt n 64). lia. }
  destruct (alphabet_position _ Hlt) as (Hv & Hp).
  rewrite N2Nat.id in Hv. now split.
Qed.

Lemma list_ind3 (A : Type) (P : list A -> Prop) :
  P [] -> (forall a, P [a]) -> (forall a b, P [a; b]) ->
  (forall a b c rest, P rest -> P (a :: b :: c :: rest)) ->
  forall l, P l.
Proof.
  intros H0 H1 H2 H3. fix IH 1.
  intros [|a [|b [|c rest]]]; [exact H0 | apply H1 | apply H2 |].
  apply H3, IH.
Qed.

Lemma group_of_digits (n : N) (c1 c2 c3 c4 : ascii) :
  n < 16777216 ->
  c1 = b64_digit (n / 262144) -> c2 = b64_digit (n / 4096) ->
  c3 = b64_digit (n / 64) -> c4 = b64_digit n ->
  exists v1 v2 v3 v4,
    b64_value c1 = Some v1 /\ b64_value c2 = Some v2
    /\ b64_value c3 = Some v3 /\ b64_value c4 = Some v4
    /\ Ascii.eqb c3 "=" = false /\ Ascii.eqb c4 "=" = false
    /\ v3 = (n / 64) mod 64 /\ v4 = n mod 64
    /\ b64_group v1 v2 v3 v4 = n.
Proof.
  intros Hn -> -> -> ->.
  exists ((n / 262144) mod 64), ((n / 4096) mod 64), ((n / 64) mod 64), (n mod 64).
  repeat split; try apply b64_digit_spec. now apply b64_group_digits.
Qed.

Theorem b64decode_b64encode (data : list byte) :
  b64decode (b64encode data) = Some data.
Proof.
  induction data as [|a|a b|a b c rest IH] using list_ind3.
  - reflexivity.
  - cbn [b64encode].
    set (n := Byte.to_N a * 65536).
    destruct (bytes_of_group a x00%byte x00%byte) as (Hn & Ha & _).
    change (Byte.to_N x00) with 0 in Hn, Ha.
    replace (Byte.to_N a * 65536 + 0 * 256 + 0) with n in Hn, Ha by (subst n; lia).
    destruct (group_of_digits n _ _ _ _ Hn eq_refl eq_refl eq_refl eq_refl)
      as (v1 & v2 & v3 & v4 & E1 & E2 & X3 & X4 & Q3 & Q4 & E3 & E4 & Hg).
    assert (Hz : v3 = 0 /\ v4 = 0).
    { subst v3 v4 n.
      replace (Byte.to_N a * 65536) with ((Byte.to_N a * 16 * 64) * 64) by lia.
      rewrite N.div_mul by discriminate.
      now rewrite !N.Div0.mod_mul. }
    destruct Hz as (-> & ->).
    cbn [b64decode]. rewrite E1, E2. cbn. now rewrite Hg, Ha.
  - cbn [b64encode].
    set (n := Byte.to_N a * 65536 + Byte.to_N b * 256).
    destruct (bytes_of_group a b x00%byte) as (Hn & Ha & Hb & _).
    change (Byte.to_N x00) with 0 in Hn, Ha, Hb.
    replace (Byte.to_N a * 65536 + Byte.to_N b * 256 + 0) with n in Hn, Ha, Hb
      by (subst n; lia).
    destruct (group_of_digits n _ _ _ _ Hn eq_refl eq_refl eq_refl eq_refl)
      as (v1 & v2 & v3 & v4 & E1 & E2 & E3 & X4 & P3 & Q4 & V3 & E4 & Hg).
    assert (Hz : v4 = 0).
    { subst v4 n.
      replace (Byte.to_N a * 65536 + Byte.to_N b * 256)
        with ((Byte.to_N a * 1024 + Byte.to_N b * 4) * 64) by lia.
      now rewrite N.Div0.mod_mul. }
    rewrite Hz in Hg.
    cbn [b64decode]. rewrite E1, E2, P3, E3. cbn. now rewrite Hg, Ha, Hb.
  - cbn [b64encode].
    set (n := Byte.to_N a * 65536 + Byte.to_N b * 256 + Byte.to_N c).
    destruct (bytes_of_group a b c) as (Hn & Ha & Hb & Hc). fold n in Hn, Ha, Hb, Hc.
    destruct (group_of_digits n _ _ _ _ Hn eq_refl eq_refl eq_refl eq_refl)
      as (v1 & v2 & v3 & v4 & E1 & E2 & E3 & E4 & P3 & P4 & V3 & V4 & Hg).
    cbn [b64decode]. rewrite E1, E2, P3, E3, P4, E4, IH, Hg, Ha, Hb, Hc.
    reflexivity.
Qed.

End Base64.

Section Case.











Lemma mime_cases (ext : string) :
  let m := match mime_lookup ext mime_types with
           | Some m => m
           | None => "image/png"
           end in
  m = "image/png" \/ m = "image/jpeg" \/ m = "image/gif" \/ m = "image/webp".
Proof.
  cbn [mime_lookup mime_types].
  destruct (String.eqb ext ".png"); [tauto|].
  destruct (String.eqb ext ".jpg"); [tauto|].
  destruct (String.eqb ext ".jpeg"); [tauto|].
  destruct (String.eqb ext ".gif"); [tauto|].
  destruct (String.eqb ext ".webp"); tauto.
Qed.

Lemma data_uri_payload (m1 m2 x y : string) :
  (m1 = "image/png" \/ m1 = "image/jpeg" \/ m1 = "image/gif" \/ m1 = "image/webp") ->
  (m2 = "image/png" \/ m2 = "image/jpeg" \/ m2 = "image/gif" \/ m2 = "image/webp") ->
  "data:" +:+ m1 +:+ ";base64," +:+ x = "data:" +:+ m2 +:+ ";base64," +:+ y ->
  m1 = m2 /\ x = y.
Proof.
  intros [->|[->|[->| ->]]] [->|[->|[->| ->]]] H;
    cbv [String.append] in H; try discriminate H;
    (split; [reflexivity|]); repeat (injection H as _ H); congruence.
Qed.

End Case.

Section Encoder.

(** What [encode_image_to_base64] yields, by what the path names. *)
Lemma encode_image_course (image_path : string) (st : state) :
  encode_image_to_base64 image_path st =
  match fs st !! image_path with
  | Some (File data) => (Ret (data_uri image_path data), st)
  | Some Dir => (Raise (IsADirectoryError image_path), st)
  | None => (Raise (FileNotFoundError image_path), st)
  end.
Proof.
  unfold encode_image_to_base64, bind, read_file, ret, data_uri. cbv beta.
  destruct (fs st !! image_path) as [[|data]|]; reflexivity.
Qed.


End Encoder.



(** X13.  The data URI that [encode_image_to_base64] returns loses
    nothing of the file: two calls that return the same URI, whatever
    the paths and the states, have read the same bytes.  The calls
    change nothing. *)
Theorem data_uri_determines_bytes (p q : string) (st1 st1' st2 st2' : state)
    (uri : string) :
  encode_image_to_base64 p st1 = (Ret uri, st1') ->
  encode_image_to_base64 q st2 = (Ret uri, st2') ->
  exists data,
    fs st1 !! p = Some (File data)
    /\ fs st2 !! q = Some (File data)
    /\ uri = data_uri p data
    /\ st1' = st1 /\ st2' = st2.
Proof.
  rewrite !encode_image_course.
  destruct (fs st1 !! p) as [[|d1]|]; try discriminate.
  destruct (fs st2 !! q) as [[|d2]|]; try discriminate.
  intros H1 H2.
  assert (E1 : uri = data_uri p d1 /\ st1' = st1) by (split; congruence).
  assert (E2 : uri = data_uri q d2 /\ st2' = st2) by (split; congruence).
  destruct E1 as (-> & ->). destruct E2 as (E2 & ->). clear H1 H2.
  unfold data_uri in E2.
  apply data_uri_payload in E2 as (_ & Henc); try apply mime_cases.
  assert (Hd : Some d1 = Some d2).
  { rewrite <- (b64decode_b64encode d1), <- (b64decode_b64encode d2).
    now rewrite Henc. }
  injection Hd as <-. exists d1. repeat split.
Qed.

Lemma data_uri_determines_bytes_witness :
  let st1 := {| log := []; fs := {[ "a.png" := File [x4d; x61]%byte ]} |} in
  let st2 := {| log := []; fs := {[ "b.PNG" := File [x4d; x61]%byte ]} |} in
  exists data,
    fs st1 !! "a.png" = Some (File data) /\ fs st2 !! "b.PNG" = Some (File data)
    /\ "data:image/png;base64,TWE=" = data_uri "a.png" data.
Proof.
  intros st1 st2.
  destruct (data_uri_determines_bytes "a.png" "b.PNG" st1 st1 st2 st2
              "data:image/png;base64,TWE=")
    as (data & H1 & H2 & Huri & _).
  - reflexivity.
  - reflexivity.
  - exists data. split; [exact H1|]. split; [exact H2 | exact Huri].
Defined.



(** ** The names of the downloaded files *)

Section Stamps.

Lemma digit_inj (a b : nat) : digit a = digit b -> (a mod 10 = b mod 10)%nat.
Proof.
  unfold digit. intros H.
  apply (f_equal nat_of_ascii) in H.
  pose proof (Nat.mod_upper_bound a 10).
  pose proof (Nat.mod_upper_bound b 10).
  rewrite !nat_ascii_embedding in H by lia. lia.
Qed.

Lemma pad2_inj (a b : nat) (x y : string) :
  (a < 100)%nat -> (b < 100)%nat -> pad2 a +:+ x = pad2 b +:+ y -> a = b /\ x = y.
Proof.
  intros Ha Hb H. unfold pad2 in H. rewrite !append_cons in H.
  injection H as H1 H2 H3.
  apply digit_inj in H1. apply digit_inj in H2.
  split; [|exact H3].
  pose proof (Nat.div_mod_eq a 10). pose proof (Nat.div_mod_eq b 10).
  assert (a / 10 < 10)%nat by (apply Nat.Div0.div_lt_upper_bound; lia).
  assert (b / 10 < 10)%nat by (apply Nat.Div0.div_lt_upper_bound; lia).
  rewrite (Nat.mod_small (a / 10)) in H1 by lia.
  rewrite (Nat.mod_small (b / 10)) in H1 by lia.
  lia.
Qed.

Lemma pad4_inj (a b : nat) (x y : string) :
  (a < 10000)%nat -> (b < 10000)%nat -> pad4 a +:+ x = pad4 b +:+ y -> a = b /\ x = y.
Proof.
  intros Ha Hb H. unfold pad4, pad2 in H. rewrite !append_cons in H.
  injection H as H3 H2 H1 H0 Hxy.
  apply digit_inj in H3, H2, H1, H0.
  split; [|exact Hxy].
  change (fst (Nat.divmod a 999 0 999)) with (a / 1000)%nat in H3.
  change (fst (Nat.divmod b 999 0 999)) with (b / 1000)%nat in H3.
  change (fst (Nat.divmod a 99 0 99)) with (a / 100)%nat in H2.
  change (fst (Nat.divmod b 99 0 99)) with (b / 100)%nat in H2.
  change (fst (Nat.divmod a 9 0 9)) with (a / 10)%nat in H1.
  change (fst (Nat.divmod b 9 0 9)) with (b / 10)%nat in H1.
  assert (E3 : forall n, (n / 1000 = n / 10 / 10 / 10)%nat)
    by (intros n; now rewrite !Nat.Div0.div_div).
  assert (E2 : forall n, (n / 100 = n / 10 / 10)%nat)
    by (intros n; now rewrite !Nat.Div0.div_div).
  assert (A3 : (a / 10 / 10 / 10 < 10)%nat).
  { rewrite <- E3. apply Nat.Div0.div_lt_upper_bound. exact Ha. }
  assert (B3 : (b / 10 / 10 / 10 < 10)%nat).
  { rewrite <- E3. apply Nat.Div0.div_lt_upper_bound. exact Hb. }
  rewrite !E3 in H3. rewrite !E2 in H2.
  pose proof (Nat.div_mod_eq a 10) as A0.
  pose proof (Nat.div_mod_eq (a / 10) 10) as A1.
  pose proof (Nat.div_mod_eq (a / 10 / 10) 10) as A2.
  pose proof (Nat.div_mod_eq b 10) as B0.
  pose proof (Nat.div_mod_eq (b / 10) 10) as B1.
  pose proof (Nat.div_mod_eq (b / 10 / 10) 10) as B2.
  pose proof (Nat.mod_small _ _ A3) as A4.
  pose proof (Nat.mod_small _ _ B3) as B4.
  clear E2 E3 Ha Hb Hxy.
  remember (a / 10 / 10 / 10)%nat as a3 eqn:Ea3.
  remember (b / 10 / 10 / 10)%nat as b3 eqn:Eb3.
  remember (a3 mod 10)%nat as ra3 eqn:Ra3. remember (b3 mod 10)%nat as rb3 eqn:Rb3.
  remember (a / 10 / 10)%nat as a2 eqn:Ea2. remember (b / 10 / 10)%nat as b2 eqn:Eb2.
  remember (a2 mod 10)%nat as ra2 eqn:Ra2. remember (b2 mod 10)%nat as rb2 eqn:Rb2.
  remember (a / 10)%nat as a1 eqn:Ea1. remember (b / 10)%nat as b1 eqn:Eb1.
  remember (a1 mod 10)%nat as ra1 eqn:Ra1. remember (b1 mod 10)%nat as rb1 eqn:Rb1.
  remember (a mod 10)%nat as ra0 eqn:Ra0. remember (b mod 10)%nat as rb0 eqn:Rb0.
  clear Ea3 Eb3 Ra3 Rb3 Ea2 Eb2 Ra2 Rb2 Ea1 Eb1 Ra1 Rb1 Ra0 Rb0.
  lia.
Qed.

Lemma in_range_bounds (t : datetime) :
  in_range t = true ->
  (year t < 10000 /\ month t < 100 /\ day t < 100
   /\ hour t < 100 /\ minute t < 100 /\ second t < 100)%nat.
Proof.
  unfold in_range. rewrite !andb_true_iff, !Nat.ltb_lt. tauto.
Qed.

(** Two readings of the clock that are formatted alike are the same
    reading, whatever follows the stamp. *)
Lemma strftime_stamp_inj (t1 t2 : datetime) (x y : string) :
  in_range t1 = true -> in_range t2 = true ->
  strftime_stamp t1 +:+ x = strftime_stamp t2 +:+ y -> t1 = t2 /\ x = y.
Proof.
  intros R1 R2 H.
  apply in_range_bounds in R1 as (Y1 & M1 & D1 & h1 & m1 & s1).
  apply in_range_bounds in R2 as (Y2 & M2 & D2 & h2 & m2 & s2).
  unfold strftime_stamp in H. rewrite !append_assoc in H.
  apply pad4_inj in H as (Ey & H); [|lia..].
  apply pad2_inj in H as (Em & H); [|lia..].
  apply pad2_inj in H as (Ed & H); [|lia..].
  apply (inj (String.app "_")) in H.
  apply pad2_inj in H as (Eh & H); [|lia..].
  apply pad2_inj in H as (Emi & H); [|lia..].
  apply pad2_inj in H as (Es & H); [|lia..].
  split; [|exact H].
  destruct t1, t2. cbn in *. congruence.
Qed.

End Stamps.

Section GeneratedNames.

Variable cfg : config.
Variable w : world.

(** A call without destination that returns, returns the generated
    destination. *)
Lemma download_returns_generated (v : json) (st st' : state) (p : string) :
  download_video cfg w v None st = (Ret p, st') -> p = generated_path cfg w st.
Proof.
  intros Hcall.
  destruct (download_video_returns cfg w v None st st' p Hcall)
    as (u & resp & _ & _ & _ & _ & _ & Hp & _).
  exact Hp.
Qed.

Lemma generated_name_inj (dir s1 s2 : string) :
  path_join dir (video_name s1) = path_join dir (video_name s2) ->
  s1 +:+ ".mp4" = s2 +:+ ".mp4".
Proof.
  unfold path_join. rewrite !video_name_relative.
  destruct (String.eqb dir "" || ends_with_slash dir); intros H.
  - apply (inj (String.app dir)) in H. unfold video_name in H.
    now apply (inj (String.app "wan_video_")) in H.
  - apply (inj (String.app dir)) in H. apply (inj (String.app "/")) in H.
    unfold video_name in H.
    now apply (inj (String.app "wan_video_")) in H.
Qed.

End GeneratedNames.

(** C7.  A call of [download_video] without destination, the artifact
    being served and the system letting the directory and the file be
    written, returns a destination that lies under the configured
    output directory and whose name holds the timestamp of the call
    ([wan_video_<timestamp>.mp4]): what [%Y%m%d_%H%M%S] makes of the
    reading of the clock taken in the call, fifteen characters for a
    date with a four-digit year, from which that reading can be told,
    no other such date giving the same name.  The directory, made if it was absent, is there
    afterwards, and the file holds the bytes served.  Calling again in
    the state reached, where the directory now exists, succeeds in the
    same way. *)
Theorem download_generates_destination (cfg : config) (w : world) (u : string)
    (resp : response) (st : state) :
  makedirs_allowed w st (WAN_OUTPUT_DIR cfg) = true ->
  artifact w u = Some resp ->
  status_ok resp = true ->
  (forall stamp,
     open_refused w (path_join (WAN_OUTPUT_DIR cfg) (video_name stamp)) = false
     /\ fs st !! path_join (WAN_OUTPUT_DIR cfg) (video_name stamp) <> Some Dir) ->
  let now := clock w (S (length (log st))) in
  exists st1 st2,
    download_video cfg w (JStr u) None st = (Ret (generated_path cfg w st), st1)
    /\ generated_path cfg w st
       = path_join (WAN_OUTPUT_DIR cfg)
           ("wan_video_" +:+ strftime_stamp now +:+ ".mp4")
    /\ String.prefix (WAN_OUTPUT_DIR cfg) (generated_path cfg w st) = true
    /\ occurs (strftime_stamp now) (generated_path cfg w st) = true
    /\ (four_digit_year now = true ->
        String.length (strftime_stamp now) = 15%nat
        /\ forall t, four_digit_year t = true ->
             path_join (WAN_OUTPUT_DIR cfg) (video_name (strftime_stamp t))
             = generated_path cfg w st ->
             t = now)
    /\ fs st1 !! WAN_OUTPUT_DIR cfg = Some Dir
    /\ fs st1 !! generated_path cfg w st = Some (File (content resp))
    /\ download_video cfg w (JStr u) None st1 = (Ret (generated_path cfg w st1), st2)
    /\ fs st2 !! WAN_OUTPUT_DIR cfg = Some Dir
    /\ fs st2 !! generated_path cfg w st1 = Some (File (content resp)).
Proof.
  intros Hallowed Hserved Hok Hsys now.
  assert (Hopen : forall stamp,
            open_refused w (path_join (WAN_OUTPUT_DIR cfg) (video_name stamp)) = false)
    by (intros stamp; apply Hsys).
  assert (Hne : forall s, generated_path cfg w s <> WAN_OUTPUT_DIR cfg)
    by (intros s; apply generated_not_dir).
  pose proof (download_generated cfg w u resp Hserved Hok Hopen st Hallowed) as H1.
  specialize (H1 (proj2 (Hsys _))).
  set (p1 := generated_path cfg w st) in *.
  set (st1 := {| log := OpenedForWrite p1 :: HttpGetArtifact u
                        :: MadeDirs (WAN_OUTPUT_DIR cfg) :: log st;
                 fs := <[p1 := File (content resp)]>
                         (<[WAN_OUTPUT_DIR cfg := Dir]> (fs st)) |}) in *.
  assert (Hdir1 : fs st1 !! WAN_OUTPUT_DIR cfg = Some Dir).
  { cbn [st1 fs]. rewrite lookup_insert_ne by apply Hne. apply lookup_insert_eq. }
  assert (Hallowed1 : makedirs_allowed w st1 (WAN_OUTPUT_DIR cfg) = true).
  { unfold makedirs_allowed. now rewrite Hdir1. }
  assert (Hfree1 : fs st1 !! generated_path cfg w st1 <> Some Dir).
  { cbn [st1 fs].
    destruct (decide (p1 = generated_path cfg w st1)) as [<-|Hp].
    - rewrite lookup_insert_eq. discriminate.
    - rewrite lookup_insert_ne by exact Hp.
      rewrite lookup_insert_ne by (intros Heq; exact (Hne st1 (eq_sym Heq))).
      apply Hsys. }
  pose proof (download_generated cfg w u resp Hserved Hok Hopen st1 Hallowed1 Hfree1)
    as H2.
  eexists st1, _.
  split; [exact H1|]. split; [reflexivity|].
  split; [apply generated_under|].
  split; [exact (generated_holds_stamp (WAN_OUTPUT_DIR cfg) (strftime_stamp now))|].
  split.
  { intros Hnow. split; [reflexivity|]. intros t Ht Hsame.
    unfold four_digit_year in Hnow, Ht.
    apply andb_prop in Hnow as [Hnow _]. apply andb_prop in Ht as [Ht _].
    unfold p1, generated_path, generated_stamp in Hsame. fold now in Hsame.
    apply generated_name_inj in Hsame.
    now apply strftime_stamp_inj in Hsame as (Heq & _). }
  split; [exact Hdir1|].
  split; [cbn [st1 fs]; apply lookup_insert_eq|].
  split; [exact H2|].
  split.
  - cbn [fs]. rewrite lookup_insert_ne by apply Hne. apply lookup_insert_eq.
  - cbn [fs]. apply lookup_insert_eq.
Qed.

Lemma download_generates_destination_witness :
  let w := scripted None [] (Some (video_response [x01; x02; x03]%byte)) in
  fs fresh !! "./output" = None
  /\ (exists st1 st2,
        download_video with_key w (JStr "https://cdn.example/v.mp4") None fresh
          = (Ret "./output/wan_video_20260309_120007.mp4", st1)
        /\ fs st1 !! "./output" = Some Dir
        /\ download_video with_key w (JStr "https://cdn.example/v.mp4") None st1
           = (Ret "./output/wan_video_20260309_120007.mp4", st2)
        /\ fs st2 !! "./output" = Some Dir)
  /\ (forall t, four_digit_year t = true ->
        path_join "./output" (video_name (strftime_stamp t))
        = "./output/wan_video_20260309_120007.mp4" ->
        t = noon).
Proof.
  intros w. split; [reflexivity|].
  destruct (download_generates_destination with_key w "https://cdn.example/v.mp4"
              (video_response [x01; x02; x03]%byte) fresh)
    as (st1 & st2 & H1 & _ & _ & _ & Htold & Hd1 & _ & H2 & Hd2 & _).
  - reflexivity.
  - reflexivity.
  - reflexivity.
  - intros stamp. split; [reflexivity|].
    change (fs fresh) with (∅ : gmap string node).
    rewrite lookup_empty. discriminate.
  - split.
    + exists st1, st2.
      split; [exact H1|]. split; [exact Hd1|]. split; [exact H2 | exact Hd2].
    + intros t Ht Hsame. exact (proj2 (Htold eq_refl) t Ht Hsame).
Defined.


(** X15.  The generated name has the resolution of the clock's second:
    two calls of [download_video] without destination whose readings
    of the clock are formatted alike go to the same path, and the
    file of the first call is replaced by that of the second. *)
Theorem same_second_overwrites (cfg : config) (w : world) (u1 u2 : string)
    (r1 r2 : response) (st : state) :
  makedirs_allowed w st (WAN_OUTPUT_DIR cfg) = true ->
  artifact w u1 = Some r1 -> status_ok r1 = true ->
  artifact w u2 = Some r2 -> status_ok r2 = true ->
  (forall stamp,
     open_refused w (path_join (WAN_OUTPUT_DIR cfg) (video_name stamp)) = false
     /\ fs st !! path_join (WAN_OUTPUT_DIR cfg) (video_name stamp) <> Some Dir) ->
  strftime_stamp (clock w (4 + length (log st)))
  = strftime_stamp (clock w (1 + length (log st))) ->
  let p := generated_path cfg w st in
  exists st1 st2,
    download_video cfg w (JStr u1) None st = (Ret p, st1)
    /\ fs st1 !! p = Some (File (content r1))
    /\ download_video cfg w (JStr u2) None st1 = (Ret p, st2)
    /\ fs st2 !! p = Some (File (content r2)).
Proof.
  intros Hallowed Ha1 Hok1 Ha2 Hok2 Hsys Hclock p.
  assert (Hopen : forall stamp,
            open_refused w (path_join (WAN_OUTPUT_DIR cfg) (video_name stamp)) = false)
    by (intros stamp; apply Hsys).
  pose proof (download_generated cfg w u1 r1 Ha1 Hok1 Hopen st Hallowed
                (proj2 (Hsys _))) as H1.
  fold p in H1.
  set (st1 := {| log := OpenedForWrite p :: HttpGetArtifact u1
                        :: MadeDirs (WAN_OUTPUT_DIR cfg) :: log st;
                 fs := <[p := File (content r1)]>
                         (<[WAN_OUTPUT_DIR cfg := Dir]> (fs st)) |}) in *.
  assert (Hsame : generated_path cfg w st1 = p).
  { unfold p, generated_path, generated_stamp. cbn [st1 log length].
    change (S (S (S (S (length (log st)))))) with (4 + length (log st))%nat.
    change (S (length (log st))) with (1 + length (log st))%nat.
    now rewrite Hclock. }
  assert (Hne : p <> WAN_OUTPUT_DIR cfg) by apply generated_not_dir.
  assert (Hallowed1 : makedirs_allowed w st1 (WAN_OUTPUT_DIR cfg) = true).
  { unfold makedirs_allowed. cbn [st1 fs].
    rewrite lookup_insert_ne by exact Hne. now rewrite lookup_insert_eq. }
  assert (Hfree1 : fs st1 !! generated_path cfg w st1 <> Some Dir).
  { rewrite Hsame. cbn [st1 fs]. rewrite lookup_insert_eq. discriminate. }
  pose proof (download_generated cfg w u2 r2 Ha2 Hok2 Hopen st1 Hallowed1 Hfree1)
    as H2.
  rewrite Hsame in H2.
  eexists st1, _. split; [exact H1|].
  split; [cbn [st1 fs]; apply lookup_insert_eq|].
  split; [exact H2|]. cbn [fs]. apply lookup_insert_eq.
Qed.

Lemma same_second_overwrites_witness :
  let w := {| submit := fun _ => None;
              task_status := fun _ _ => None;
              artifact := fun u => if String.eqb u "first"
                                   then Some (video_response [x01]%byte)
                                   else Some (video_response [x02]%byte);
              artifact_failure := fun _ => NoAnswer;
              header_refused := fun _ _ => None;
              clock := fun _ => noon;
              mkdir_refused := fun _ => false;
              open_refused := fun _ => false |} in
  exists st1 st2,
    download_video with_key w (JStr "first") None fresh
    = (Ret "./output/wan_video_20260309_120007.mp4", st1)
    /\ download_video with_key w (JStr "second") None st1
       = (Ret "./output/wan_video_20260309_120007.mp4", st2)
    /\ fs st2 !! "./output/wan_video_20260309_120007.mp4" = Some (File [x02]%byte).
Proof.
  intros w.
  destruct (same_second_overwrites with_key w "first" "second"
              (video_response [x01]%byte) (video_response [x02]%byte) fresh)
    as (st1 & st2 & H1 & _ & H2 & Hfile).
  - reflexivity.
  - reflexivity.
  - reflexivity.
  - reflexivity.
  - reflexivity.
  - intros stamp. split; [reflexivity|].
    change (fs fresh) with (∅ : gmap string node).
    rewrite lookup_empty. discriminate.
  - reflexivity.
  - exists st1, st2. split; [exact H1|]. split; [exact H2 | exact Hfile].
Defined.

(** X16.  Across seconds the generated names do not collide: two calls
    of [download_video] without destination that return, and whose
    readings of the clock are different dates of the years 0 to 9999,
    return different paths. *)
Theorem distinct_seconds_distinct_files (cfg : config) (w : world) (v v' : json)
    (st st' s1 s1' : state) (p p' : string) :
  download_video cfg w v None st = (Ret p, s1) ->
  download_video cfg w v' None st' = (Ret p', s1') ->
  in_range (clock w (S (length (log st)))) = true ->
  in_range (clock w (S (length (log st')))) = true ->
  clock w (S (length (log st))) <> clock w (S (length (log st'))) ->
  p <> p'.
Proof.
  intros H1 H2 R1 R2 Hclock Heq.
  apply download_returns_generated in H1, H2. subst p p'.
  unfold generated_path, generated_stamp in Heq.
  apply generated_name_inj in Heq.
  apply strftime_stamp_inj in Heq as (Ht & _); [|exact R1|exact R2].
  contradiction.
Qed.

Lemma distinct_seconds_distinct_files_witness :
  let later := {| year := 2026; month := 3; day := 9;
                  hour := 12; minute := 0; second := 8 |} in
  let w := {| submit := fun _ => None;
              task_status := fun _ _ => None;
              artifact := fun _ => Some (video_response [x01]%byte);
              artifact_failure := fun _ => NoAnswer;
              header_refused := fun _ _ => None;
              clock := fun k => if (k <? 3)%nat then noon else later;
              mkdir_refused := fun _ => false;
              open_refused := fun _ => false |} in
  exists st1 st2,
    download_video with_key w (JStr "https://cdn.example/v.mp4") None fresh
    = (Ret "./output/wan_video_20260309_120007.mp4", st1)
    /\ download_video with_key w (JStr "https://cdn.example/v.mp4") None st1
       = (Ret "./output/wan_video_20260309_120008.mp4", st2)
    /\ "./output/wan_video_20260309_120007.mp4"
       <> "./output/wan_video_20260309_120008.mp4".
Proof.
  intros later w.
  destruct (download_video with_key w (JStr "https://cdn.example/v.mp4") None fresh)
    as [o1 st1] eqn:H1.
  assert (Ho1 : (o1, st1) = (Ret "./output/wan_video_20260309_120007.mp4",
                   {| log := [OpenedForWrite "./output/wan_video_20260309_120007.mp4";
                              HttpGetArtifact "https://cdn.example/v.mp4";
                              MadeDirs "./output"];
                      fs := <["./output/wan_video_20260309_120007.mp4" := File [x01]%byte]>
                              (<["./output" := Dir]> ∅) |})).
  { rewrite <- H1. reflexivity. }
  injection Ho1 as -> ->.
  match type of H1 with _ = (_, ?s) => set (st1 := s) in * end.
  destruct (download_video with_key w (JStr "https://cdn.example/v.mp4") None st1)
    as [o2 st2] eqn:H2.
  assert (Ho2 : o2 = Ret "./output/wan_video_20260309_120008.mp4").
  { change o2 with (fst (o2, st2)). rewrite <- H2. reflexivity. }
  subst o2.
  exists st1, st2. split; [exact H1|]. split; [exact H2|].
  apply (distinct_seconds_distinct_files with_key w
           (JStr "https://cdn.example/v.mp4") (JStr "https://cdn.example/v.mp4")
           fresh st1 st1 st2 _ _ H1 H2).
  - reflexivity.
  - reflexivity.
  - discriminate.
Defined.
